(** * train.py : the training orchestrator of the convolutional auto-encoder

    A shallow embedding of [main] of [train.py] and of the string-valued
    configuration it dispatches on.  Python's local variables that are
    assigned on some branches only are carried as [option] values ([None]
    is "not yet assigned"), reading one raises [UnboundLocalError]; the
    calls into Keras, ktrain, TensorFlow and the [modules] package are
    recorded, in order, in an event log, and the values they return are
    kept as symbolic terms.  The collaborators are taken to return
    normally; the exceptions of a run are those [main] raises itself. *)

From Stdlib Require Import ZArith QArith String Ascii List Bool Lia DecimalString.
Import ListNotations.

Open Scope string_scope.
Open Scope Z_scope.

Notation "a =s b" := (String.eqb a b) (at level 70, no associativity).

(** ** Python strings (ASCII texts) and POSIX paths *)

Module PyStr.

Definition is_ascii_lower (c : ascii) : bool :=
  let n := nat_of_ascii c in (97 <=? n)%nat && (n <=? 122)%nat.

Definition upper_char (c : ascii) : ascii :=
  if is_ascii_lower c then ascii_of_nat (nat_of_ascii c - 32) else c.

(** [str.upper()]; characters outside a..z are left as they are. *)
Fixpoint upper (s : string) : string :=
  match s with
  | EmptyString => EmptyString
  | String c r => String (upper_char c) (upper r)
  end.

(** ["{}".format(n)] for an [int]. *)
Definition str_of_int (n : Z) : string := NilZero.string_of_int (Z.to_int n).

Definition startswith_sep (s : string) : bool :=
  match s with
  | String c _ => Ascii.eqb c "/"
  | EmptyString => false
  end.

Fixpoint endswith_sep (s : string) : bool :=
  match s with
  | EmptyString => false
  | String c EmptyString => Ascii.eqb c "/"
  | String _ r => endswith_sep r
  end.

Definition join2 (path b : string) : string :=
  if startswith_sep b then b
  else if (path =s "") || endswith_sep path then path ++ b
  else path ++ "/" ++ b.

(** [os.path.join(a, *p)] of posixpath. *)
Definition path_join (a : string) (p : list string) : string :=
  fold_left join2 p a.

Definition nl : string := String (ascii_of_nat 10) EmptyString.

End PyStr.
Import PyStr.

(** ** Exceptions *)

Inductive exn : Type :=
| ValueError (msg : string)
| Exception_ (msg : string)
| UnboundLocalError (var : string)
| ZeroDivisionError (msg : string).

Definition exn_class (e : exn) : string :=
  match e with
  | ValueError _ => "ValueError"
  | Exception_ _ => "Exception"
  | UnboundLocalError _ => "UnboundLocalError"
  | ZeroDivisionError _ => "ZeroDivisionError"
  end.

(** ** Values handed to and returned by the collaborators *)

(** The command line, as [argparse] hands it to [main]. *)
Record Args : Type := mkArgs {
  a_directory : string;
  a_architecture : string;
  a_nb_images : Z;
  a_batch : Z;
  a_loss : string;
  a_color : string;
  a_lr_find : Z;
  a_tag : option string
}.

(** The model objects of [modules.models]: [mvtec.build_model(channels)],
    [mvtec_2.build_model(channels)], [resnet.build_model()]. *)
Inductive Model : Type :=
| MvtecModel (channels : Z)
| Mvtec2Model (channels : Z)
| ResnetModel.

Inductive BaseEncoder : Type := ResnetEncoder.

(** [custom_metrics.ssim_metric], [custom_metrics.mssim_metric]. *)
Inductive Metric : Type := ssim_metric | mssim_metric.

(** What [model.compile(loss=...)] can be given: a function of
    [modules.loss_functions], or the name of a Keras loss. *)
Inductive LossObjective : Type :=
| ssim_loss
| mssim_loss
| l2_loss
| keras_loss (name : string).

Inductive PreprocessInput : Type :=
| inception_resnet_v2_preprocess_input
| nasnet_preprocess_input.

Record ImageDataGenerator : Type := mkDatagen {
  dg_rotation_range : Q;
  dg_width_shift_range : Q;
  dg_height_shift_range : Q;
  dg_fill_mode : string;
  dg_cval : Q;
  dg_brightness_range : option (Q * Q);
  dg_rescale : option Q;
  dg_preprocessing_function : option PreprocessInput;
  dg_data_format : string;
  dg_validation_split : Q
}.

(** The iterator returned by [flow_from_directory]. *)
Record DirectoryIterator : Type := mkIterator {
  it_datagen : ImageDataGenerator;
  it_directory : string;
  it_target_size : Z * Z;
  it_color_mode : string;
  it_batch_size : Z;
  it_class_mode : string;
  it_subset : string;
  it_shuffle : bool;
  it_filenames : list string
}.

Definition it_samples (g : DirectoryIterator) : Z :=
  Z.of_nat (length (it_filenames g)).

(** Number of channels of the images an iterator yields, as Keras sets
    its image shape: four for rgba, three for rgb, one otherwise. *)
Definition it_channels (g : DirectoryIterator) : Z :=
  if it_color_mode g =s "rgba" then 4
  else if it_color_mode g =s "rgb" then 3
  else 1.

(** Image batches, as terms over the collaborators' calls. *)
Inductive Tensor : Type :=
| Batch (g : DirectoryIterator) (files : list string)
| Predicted (m : Model) (x : Tensor)
| Resmaps (imgs_input imgs_pred : Tensor) (loss : string)
| RgbToGrayscale (x : Tensor).

(** The image files a batch was made from. *)
Fixpoint tensor_files (t : Tensor) : list string :=
  match t with
  | Batch _ files => files
  | Predicted _ x => tensor_files x
  | Resmaps x _ _ => tensor_files x
  | RgbToGrayscale x => tensor_files x
  end.

Definition model_channels (m : Model) : Z :=
  match m with
  | MvtecModel c => c
  | Mvtec2Model c => c
  | ResnetModel => 3
  end.

(** Channel count of an image batch; a reconstruction has the channels the
    model was built with. *)
Definition image_channels (t : Tensor) : option Z :=
  match t with
  | Batch g _ => Some (it_channels g)
  | Predicted m _ => Some (model_channels m)
  | Resmaps _ _ _ => None
  | RgbToGrayscale _ => Some 1
  end.

(** The dictionary written to [setup.json]. *)
Record Setup : Type := mkSetup {
  su_directory : string;
  su_nb_training_images : Z;
  su_nb_validation_images : Z;
  su_rescale : option Q;
  su_shape : Z * Z;
  su_preprocessing : option string;
  su_architecture : string;
  su_nb_training_images_aug : Z;
  su_epochs : Z;
  su_batch_size : Z;
  su_loss : string;
  su_color_mode : string;
  su_channels : Z;
  su_validation_split : Q;
  su_tag : option string
}.

(** ** The event log *)

Inductive Event : Type :=
| EvBuildModel (m : Model)
| EvMakedirs (path : string)
| EvPrint (text : string)
| EvFlowFromDirectory (g : DirectoryIterator)
| EvCompile (m : Model) (loss : LossObjective) (metrics : list Metric)
| EvGetLearner (m : Model) (train_data val_data : DirectoryIterator) (batch_size : Z)
| EvLrFind
| EvLrPlot
| EvSavefig (path : string)
| EvShow
| EvInput (prompt : string)
| EvResetWeights
| EvFitOnecycle (lr : Q) (epochs : Z)
| EvSaveModel (m : Model) (path : string)
| EvFigure
| EvPlot (plot_type : string)
| EvJsonDump (path : string) (setup : Setup)
| EvNext (g : DirectoryIterator)
| EvPredict (m : Model) (x : Tensor)
| EvCalculateResmaps (imgs_input imgs_pred : Tensor) (loss : string)
| EvRgbToGrayscale (x : Tensor)
| EvSaveImages (dir : string) (imgs : Tensor) (filenames : list string)
               (color_mode suffix : string).

(** ** The world [main] runs in *)

(** What the run reads from outside: the working directory, the clock,
    the image files found under a directory for a subset, the permutation
    a shuffling iterator draws, and the learning rate typed at the prompt
    ([None] when [float] rejects the text). *)
Record Env : Type := mkEnv {
  getcwd : string;
  now_strftime : string;
  found_files : string -> string -> list string;
  shuffled : list string -> list string;
  typed_max_lr : option Q
}.

(** What the run changes: the directories that exist and the log of calls
    (latest first). *)
Record World : Type := mkWorld {
  dirs : list string;
  log : list Event
}.

Definition init_world (ds : list string) : World :=
  {| dirs := ds; log := [] |}.

(** The calls of a run, in the order they were made. *)
Definition history (w : World) : list Event := rev (log w).

(** ** The monad of [main]: state and exceptions *)

Inductive Outcome (A : Type) : Type :=
| Return (a : A)
| Raise (e : exn).
Arguments Return {A} a.
Arguments Raise {A} e.

Definition M (A : Type) : Type := World -> Outcome A * World.

Definition ret {A} (a : A) : M A := fun w => (Return a, w).

Definition raise {A} (e : exn) : M A := fun w => (Raise e, w).

Definition bind {A B} (m : M A) (f : A -> M B) : M B :=
  fun w =>
    match m w with
    | (Return a, w') => f a w'
    | (Raise e, w') => (Raise e, w')
    end.

Notation "x <- c1 ;; c2" := (bind c1 (fun x => c2))
  (at level 61, c1 at next level, right associativity).
Notation "' pat <- c1 ;; c2" := (bind c1 (fun x => match x with pat => c2 end))
  (at level 61, pat pattern, c1 at next level, right associativity).
Notation "c1 ;; c2" := (bind c1 (fun _ => c2))
  (at level 61, right associativity).

Definition emit (ev : Event) : M unit :=
  fun w => (Return tt, {| dirs := dirs w; log := ev :: log w |}).

(** Reading a local variable. *)
Definition local {A} (name : string) (v : option A) : M A :=
  match v with
  | Some a => ret a
  | None => raise (UnboundLocalError name)
  end.

Definition print (text : string) : M unit := emit (EvPrint text).

Definition isdir (path : string) : M bool :=
  fun w => (Return (existsb (String.eqb path) (dirs w)), w).

(** [os.makedirs]: the path exists afterwards (the directories it creates
    on the way are not tracked). *)
Definition makedirs (path : string) : M unit :=
  fun w => (Return tt, {| dirs := path :: dirs w; log := EvMakedirs path :: log w |}).

(** [a // b] on [int]. *)
Definition floordiv (a b : Z) : M Z :=
  if b =? 0 then raise (ZeroDivisionError "integer division or modulo by zero")
  else ret (a / b).

(** ** [flow_from_directory] and [next] of the Keras iterators *)

Definition flow_from_directory (env : Env) (datagen : ImageDataGenerator)
    (directory : string) (target_size : Z * Z) (color_mode : string)
    (batch_size : Z) (class_mode subset : string) (shuffle : bool)
  : M DirectoryIterator :=
  let g := {| it_datagen := datagen;
              it_directory := directory;
              it_target_size := target_size;
              it_color_mode := color_mode;
              it_batch_size := batch_size;
              it_class_mode := class_mode;
              it_subset := subset;
              it_shuffle := shuffle;
              it_filenames := found_files env directory subset |} in
  emit (EvFlowFromDirectory g) ;;
  ret g.

(** The files of the batch [g.next()] yields on an iterator that was not
    advanced before: the first [batch_size] entries of the index array,
    which is drawn afresh when the iterator shuffles (batch sizes are
    positive). *)
Definition next_files (env : Env) (g : DirectoryIterator) : list string :=
  let index_array :=
    if it_shuffle g then shuffled env (it_filenames g) else it_filenames g in
  firstn (Z.to_nat (it_batch_size g)) index_array.

(** [g.next()[0]] *)
Definition next_inputs (env : Env) (g : DirectoryIterator) : M Tensor :=
  emit (EvNext g) ;;
  ret (Batch g (next_files env g)).

(** ** The blocks of [main] *)

(** "check input arguments", lines 67-75. *)
Definition check_input_arguments (architecture color_mode loss : string) : M unit :=
  (if (architecture =s "resnet") && (color_mode =s "grayscale")
   then raise (ValueError "ResNet expects rgb images") else ret tt) ;;
  (if (architecture =s "nasnet") && (color_mode =s "grayscale")
   then raise (ValueError "NasNet expects rgb images") else ret tt) ;;
  (if (loss =s "MSSIM") && (color_mode =s "grayscale")
   then raise (ValueError "MSSIM works only with rgb images") else ret tt) ;;
  (if (loss =s "SSIM") && (color_mode =s "rgb")
   then raise (ValueError "SSIM works only with grayscale images") else ret tt).

(** "set chennels and metrics to monitor training", lines 77-85:
    the values of [channels], [resmaps_mode] and [metrics] afterwards. *)
Definition set_channels_and_metrics (color_mode : string)
  : option Z * option string * option (list Metric) :=
  if color_mode =s "grayscale" then (Some 1, Some "SSIM", Some [ssim_metric])
  else if color_mode =s "rgb" then (Some 3, Some "MSSIM", Some [mssim_metric])
  else (None, None, None).

(** "build model", lines 87-97: the values of [model] and [base_encoder]. *)
Definition build_model (architecture : string) (channels : option Z)
  : M (option Model * option BaseEncoder) :=
  if architecture =s "mvtec" then
    c <- local "channels" channels ;;
    emit (EvBuildModel (MvtecModel c)) ;;
    ret (Some (MvtecModel c), None)
  else if architecture =s "mvtec2" then
    c <- local "channels" channels ;;
    emit (EvBuildModel (Mvtec2Model c)) ;;
    ret (Some (Mvtec2Model c), None)
  else if architecture =s "resnet" then
    emit (EvBuildModel ResnetModel) ;;
    ret (Some ResnetModel, Some ResnetEncoder)
  else if architecture =s "nasnet" then
    raise (Exception_ "Nasnet ist not yet implemented.")
  else ret (None, None).

(** "set loss function", lines 99-107: the value of [loss_function]. *)
Definition set_loss_function (loss : string) : option LossObjective :=
  if loss =s "SSIM" then Some ssim_loss
  else if loss =s "MSSIM" then Some mssim_loss
  else if loss =s "L2" then Some l2_loss
  else if loss =s "MSE" then Some (keras_loss "mean_squared_error")
  else None.

(** "PREPROCESSING", lines 142-157: the values of [rescale], [shape],
    [preprocessing_function] and [preprocessing]. *)
Definition set_preprocessing (architecture : string)
  : option (option Q) * option (Z * Z) * option (option PreprocessInput)
    * option (option string) :=
  if (architecture =s "mvtec") || (architecture =s "mvtec2") then
    (Some (Some (1 # 255)%Q), Some (256, 256), Some None, Some None)
  else if architecture =s "resnet" then
    (Some None, Some (299, 299), Some (Some inception_resnet_v2_preprocess_input),
     Some (Some "keras.applications.inception_resnet_v2.preprocess_input"))
  else if architecture =s "nasnet" then
    (Some None, Some (224, 224), Some (Some nasnet_preprocess_input),
     Some (Some "keras.applications.inception_resnet_v2.preprocess_input"))
  else (None, None, None, None).

(** The learning-rate finder, lines 240-261: the value of [max_lr]. *)
Definition find_learning_rate (env : Env) (lr_find : Z) (save_dir : string)
  : M (option Q) :=
  if lr_find >? 0 then
    emit EvLrFind ;;
    emit EvLrPlot ;;
    emit (EvSavefig (path_join save_dir ["lr_find_plot.png"])) ;;
    emit EvShow ;;
    print "[INFO] learning rate finder complete" ;;
    print "[INFO] examine plot and adjust learning rates before training" ;;
    emit (EvInput "Enter max learning rate: ") ;;
    max_lr <- match typed_max_lr env with
              | Some v => ret v
              | None => raise (ValueError "could not convert string to float")
              end ;;
    emit EvResetWeights ;;
    ret (Some max_lr)
  else ret None.

(** ** [main] *)

Definition main (env : Env) (args : Args) : M unit :=
  (* SETUP *)
  let directory := a_directory args in
  let train_data_dir := path_join directory ["train"] in
  let nb_training_images_aug := a_nb_images args in
  let batch_size := a_batch args in
  let color_mode := a_color args in
  let loss := upper (a_loss args) in
  let validation_split := (1 # 10)%Q in
  let architecture := a_architecture args in
  let tag := a_tag args in
  check_input_arguments architecture color_mode loss ;;
  let '(channels, resmaps_mode, metrics) := set_channels_and_metrics color_mode in
  ' (model, base_encoder) <- build_model architecture channels ;;
  let loss_function := set_loss_function loss in
  let now := now_strftime env in
  let save_dir :=
    path_join (getcwd env) ["saved_models"; directory; architecture; loss; now] in
  save_dir_exists <- isdir save_dir ;;
  (if negb save_dir_exists then makedirs save_dir else ret tt) ;;
  let model_name := "CAE_" ++ architecture ++ "_b" ++ str_of_int batch_size in
  let model_path := path_join save_dir [model_name ++ ".h5"] in
  let log_dir := path_join save_dir ["logs"] in
  log_dir_exists <- isdir log_dir ;;
  (if negb log_dir_exists then makedirs log_dir else ret tt) ;;
  (* the three callbacks of lines 125-138 are built and not used again *)
  (* PREPROCESSING *)
  let '(rescale, shape, preprocessing_function, preprocessing) :=
    set_preprocessing architecture in
  print "[INFO] Using Keras's flow_from_directory method..." ;;
  rescale_t <- local "rescale" rescale ;;
  preprocessing_function_t <- local "preprocessing_function" preprocessing_function ;;
  let train_datagen :=
    {| dg_rotation_range := 5;
       dg_width_shift_range := (5 # 100)%Q;
       dg_height_shift_range := (5 # 100)%Q;
       dg_fill_mode := "nearest";
       dg_cval := 0;
       dg_brightness_range := Some ((95 # 100)%Q, (105 # 100)%Q);
       dg_rescale := rescale_t;
       dg_preprocessing_function := preprocessing_function_t;
       dg_data_format := "channels_last";
       dg_validation_split := validation_split |} in
  rescale_v <- local "rescale" rescale ;;
  preprocessing_function_v <- local "preprocessing_function" preprocessing_function ;;
  let validation_datagen :=
    {| dg_rotation_range := 0;
       dg_width_shift_range := 0;
       dg_height_shift_range := 0;
       dg_fill_mode := "nearest";
       dg_cval := 0;
       dg_brightness_range := None;
       dg_rescale := rescale_v;
       dg_preprocessing_function := preprocessing_function_v;
       dg_data_format := "channels_last";
       dg_validation_split := validation_split |} in
  shape_t <- local "shape" shape ;;
  train_generator <-
    flow_from_directory env train_datagen train_data_dir shape_t color_mode
      batch_size "input" "training" true ;;
  shape_v <- local "shape" shape ;;
  validation_generator <-
    flow_from_directory env validation_datagen train_data_dir shape_v color_mode
      batch_size "input" "validation" true ;;
  print (nl ++ "tensorboard --logdir=" ++ log_dir ++ nl) ;;
  epochs <- floordiv nb_training_images_aug (it_samples train_generator) ;;
  (* TRAINING *)
  print "[INFO] compiling model..." ;;
  model_c <- local "model" model ;;
  loss_function_c <- local "loss_function" loss_function ;;
  metrics_c <- local "metrics" metrics ;;
  emit (EvCompile model_c loss_function_c metrics_c) ;;
  model_l <- local "model" model ;;
  emit (EvGetLearner model_l train_generator validation_generator batch_size) ;;
  max_lr <- find_learning_rate env (a_lr_find args) save_dir ;;
  max_lr_f <- local "max_lr" max_lr ;;
  emit (EvFitOnecycle max_lr_f epochs) ;;
  model_s <- local "model" model ;;
  emit (EvSaveModel model_s model_path) ;;
  print ("Saved trained model at " ++ model_path ++ " ") ;;
  emit EvFigure ;;
  emit (EvPlot "loss") ;;
  emit (EvSavefig (path_join save_dir ["loss_plot.png"])) ;;
  print ("loss plot saved at " ++ save_dir ++ " ") ;;
  emit EvFigure ;;
  emit (EvPlot "lr") ;;
  emit (EvSavefig (path_join save_dir ["lr_plot.png"])) ;;
  print ("learning rate plot saved at " ++ save_dir ++ " ") ;;
  rescale_d <- local "rescale" rescale ;;
  shape_d <- local "shape" shape ;;
  preprocessing_d <- local "preprocessing" preprocessing ;;
  channels_d <- local "channels" channels ;;
  let setup :=
    {| su_directory := directory;
       su_nb_training_images := it_samples train_generator;
       su_nb_validation_images := it_samples validation_generator;
       su_rescale := rescale_d;
       su_shape := shape_d;
       su_preprocessing := preprocessing_d;
       su_architecture := architecture;
       su_nb_training_images_aug := nb_training_images_aug;
       su_epochs := epochs;
       su_batch_size := batch_size;
       su_loss := loss;
       su_color_mode := color_mode;
       su_channels := channels_d;
       su_validation_split := validation_split;
       su_tag := tag |} in
  emit (EvJsonDump (path_join save_dir ["setup.json"]) setup) ;;
  (* predict on validation images, compute resmaps and save for visual inspection *)
  shape_i <- local "shape" shape ;;
  inspection_generator <-
    flow_from_directory env validation_datagen train_data_dir shape_i color_mode
      (it_samples validation_generator) "input" "validation" false ;;
  imgs_val_input <- next_inputs env validation_generator ;;
  let filenames := it_filenames validation_generator in
  model_p <- local "model" model ;;
  emit (EvPredict model_p imgs_val_input) ;;
  let imgs_val_pred := Predicted model_p imgs_val_input in
  resmaps_mode_r <- local "resmaps_mode" resmaps_mode ;;
  emit (EvCalculateResmaps imgs_val_input imgs_val_pred resmaps_mode_r) ;;
  let resmaps_val := Resmaps imgs_val_input imgs_val_pred resmaps_mode_r in
  resmaps_val <-
    (if color_mode =s "rgb"
     then emit (EvRgbToGrayscale resmaps_val) ;; ret (RgbToGrayscale resmaps_val)
     else ret resmaps_val) ;;
  let inspection_dir := path_join save_dir ["inspection"] in
  inspection_dir_exists <- isdir inspection_dir ;;
  (if negb inspection_dir_exists then makedirs inspection_dir else ret tt) ;;
  emit (EvSaveImages inspection_dir imgs_val_pred filenames color_mode "pred") ;;
  emit (EvSaveImages inspection_dir resmaps_val filenames color_mode "resmap").

(** A run from a world with the given directories and an empty log. *)
Definition run (env : Env) (args : Args) (ds : list string) : Outcome unit * World :=
  main env args (init_world ds).

(** ** What a computation adds to the log, and how it ends *)

(** Every call made by [m] satisfies [P], and its outcome satisfies [Q]. *)
Definition post (P : Event -> Prop) {A} (Q : Outcome A -> Prop) (m : M A) : Prop :=
  forall w, exists new,
    log (snd (m w)) = (new ++ log w)%list /\ Forall P new /\ Q (fst (m w)).

(** ** What every call of [main] satisfies *)

Definition main_inv (env : Env) (args : Args) (ev : Event) : Prop :=
  match ev with
  | EvBuildModel m =>
      m = ResnetModel \/
      exists mode ms,
        set_channels_and_metrics (a_color args)
        = (Some (model_channels m), Some mode, Some ms)
  | EvCompile m objective ms =>
      set_loss_function (upper (a_loss args)) = Some objective
  | EvJsonDump _ setup =>
      exists mode ms,
        set_channels_and_metrics (a_color args)
        = (Some (su_channels setup), Some mode, Some ms)
  | EvCalculateResmaps x y mode =>
      exists g m ms,
        x = Batch g (next_files env g) /\
        y = Predicted m x /\
        g = {| it_datagen := it_datagen g;
               it_directory := path_join (a_directory args) ["train"];
               it_target_size := it_target_size g;
               it_color_mode := a_color args;
               it_batch_size := a_batch args;
               it_class_mode := "input";
               it_subset := "validation";
               it_shuffle := true;
               it_filenames :=
                 found_files env (path_join (a_directory args) ["train"]) "validation" |} /\
        set_channels_and_metrics (a_color args)
        = (Some (model_channels m), Some mode, Some ms)
  | EvSaveImages _ t fs _ suffix =>
      fs = found_files env (path_join (a_directory args) ["train"]) "validation" /\
      (suffix = "resmap" ->
       exists x y mode,
         t = if a_color args =s "rgb"
             then RgbToGrayscale (Resmaps x y mode)
             else Resmaps x y mode)
  | _ => True
  end.

(** Calls of the training, saving and inspection parts of [main]. *)
Definition training_saving_or_inspection (ev : Event) : bool :=
  match ev with
  | EvFitOnecycle _ _ | EvSaveModel _ _ | EvFigure | EvPlot _ | EvSavefig _
  | EvJsonDump _ _ | EvNext _ | EvPredict _ _ | EvCalculateResmaps _ _ _
  | EvRgbToGrayscale _ | EvSaveImages _ _ _ _ _ => true
  | _ => false
  end.

(** The table of the module's docstring, lines 36-50. *)
Definition table_valid (architecture color_mode loss : string) : bool :=
  if color_mode =s "grayscale" then
    ((architecture =s "mvtec") || (architecture =s "mvtec2"))
    && ((loss =s "SSIM") || (loss =s "L2") || (loss =s "MSE"))
  else if color_mode =s "rgb" then
    ((architecture =s "mvtec") || (architecture =s "mvtec2")
     || (architecture =s "resnet") || (architecture =s "nasnet"))
    && ((loss =s "MSSIM") || (loss =s "L2") || (loss =s "MSE"))
  else false.

(** The combinations rejected by "check input arguments". *)
Definition invalid_combination (architecture color_mode loss : string) : bool :=
  ((architecture =s "resnet") && (color_mode =s "grayscale"))
  || ((architecture =s "nasnet") && (color_mode =s "grayscale"))
  || ((loss =s "MSSIM") && (color_mode =s "grayscale"))
  || ((loss =s "SSIM") && (color_mode =s "rgb")).

Definition configuration_errors : list exn :=
  [ ValueError "ResNet expects rgb images";
    ValueError "NasNet expects rgb images";
    ValueError "MSSIM works only with rgb images";
    ValueError "SSIM works only with grayscale images" ].

Definition with_loss (args : Args) (l : string) : Args :=
  {| a_directory := a_directory args;
     a_architecture := a_architecture args;
     a_nb_images := a_nb_images args;
     a_batch := a_batch args;
     a_loss := l;
     a_color := a_color args;
     a_lr_find := a_lr_find args;
     a_tag := a_tag args |}.

(** A lower-case letter and its upper-case form. *)
Inductive letter_case_pair : ascii -> ascii -> Prop :=
| letter_case_pair_intro (n : nat) :
    (n < 26)%nat ->
    letter_case_pair (ascii_of_nat (97 + n)) (ascii_of_nat (65 + n)).

(** Two texts that differ only in letter case. *)
Inductive differ_only_in_case : string -> string -> Prop :=
| doc_empty : differ_only_in_case "" ""
| doc_same (c : ascii) (s t : string) :
    differ_only_in_case s t -> differ_only_in_case (String c s) (String c t)
| doc_lower_upper (lo up : ascii) (s t : string) :
    letter_case_pair lo up -> differ_only_in_case s t ->
    differ_only_in_case (String lo s) (String up t)
| doc_upper_lower (lo up : ascii) (s t : string) :
    letter_case_pair lo up -> differ_only_in_case s t ->
    differ_only_in_case (String up s) (String lo t).

Definition env0 : Env :=
  {| getcwd := "/home/user";
     now_strftime := "10-12-2019_19-46-17";
     found_files := fun _ subset =>
       if subset =s "training" then ["a.png"; "b.png"; "c.png"; "d.png"]
       else ["v1.png"; "v2.png"; "v3.png"];
     shuffled := fun l => rev l;
     typed_max_lr := Some (1 # 1000)%Q |}.

(** [train.py -d mvtec/capsule -a mvtec -b 2 -l ssim -c grayscale] with
    and without [--lr-find 1]. *)
Definition args_capsule : Args :=
  mkArgs "mvtec/capsule" "mvtec" 10000 2 "ssim" "grayscale" 0 None.
Definition args_capsule_lr : Args :=
  mkArgs "mvtec/capsule" "mvtec" 10000 2 "ssim" "grayscale" 1 None.
Definition args_capsule_rgb_lr : Args :=
  mkArgs "mvtec/capsule" "mvtec" 10000 2 "mssim" "rgb" 1 None.
Definition args_ssim_rgb : Args :=
  mkArgs "mvtec/capsule" "mvtec" 10000 12 "ssim" "rgb" 0 None.
Definition args_mssim_grayscale : Args :=
  mkArgs "mvtec/capsule" "mvtec2" 10000 12 "mssim" "grayscale" 0 None.
Definition args_resnet_grayscale : Args :=
  mkArgs "mvtec/capsule" "resnet" 10000 12 "l2" "grayscale" 0 None.
Definition args_nasnet_ssim_rgb : Args :=
  mkArgs "mvtec/capsule" "nasnet" 10000 12 "ssim" "rgb" 1 None.
Definition args_nasnet_rgb : Args :=
  mkArgs "mvtec/capsule" "nasnet" 10000 12 "mssim" "rgb" 1 None.

(** The image files of each batch [calculate_resmaps] was called on. *)
Definition resmaps_inputs (h : list Event) : list (list string) :=
  flat_map (fun ev => match ev with
                      | EvCalculateResmaps x _ _ => [tensor_files x]
                      | _ => []
                      end) h.

(** Subset, batch size and shuffling of each iterator built. *)
Definition iterators_built (h : list Event) : list (string * Z * bool) :=
  flat_map (fun ev => match ev with
                      | EvFlowFromDirectory g => [(it_subset g, it_batch_size g, it_shuffle g)]
                      | _ => []
                      end) h.

(** Subset, batch size and shuffling of each iterator [next] was called on. *)
Definition iterators_read (h : list Event) : list (string * Z * bool) :=
  flat_map (fun ev => match ev with
                      | EvNext g => [(it_subset g, it_batch_size g, it_shuffle g)]
                      | _ => []
                      end) h.

(** ** The command line accepted by the parser *)

(** The [choices] the parser of lines 352-413 enforces on [--architecture],
    [--loss] and [--color]. *)
Definition argparse_accepts (args : Args) : bool :=
  existsb (String.eqb (a_architecture args)) ["mvtec"; "mvtec2"; "resnet"; "nasnet"]
  && existsb (String.eqb (a_loss args)) ["mssim"; "ssim"; "l2"; "mse"]
  && existsb (String.eqb (a_color args)) ["rgb"; "grayscale"].

(** A text of ASCII characters only: on these, [upper] is [str.upper()]. *)
Definition is_ascii_text (s : string) : bool :=
  forallb (fun c => (nat_of_ascii c <? 128)%nat) (list_ascii_of_string s).

(** How a run ends when every call into a collaborator returns, read off
    the arguments and the outside world. *)
Definition predicted_outcome (env : Env) (args : Args) : Outcome unit :=
  let architecture := a_architecture args in
  let color_mode := a_color args in
  let loss := upper (a_loss args) in
  if (architecture =s "resnet") && (color_mode =s "grayscale")
  then Raise (ValueError "ResNet expects rgb images")
  else if (architecture =s "nasnet") && (color_mode =s "grayscale")
  then Raise (ValueError "NasNet expects rgb images")
  else if (loss =s "MSSIM") && (color_mode =s "grayscale")
  then Raise (ValueError "MSSIM works only with rgb images")
  else if (loss =s "SSIM") && (color_mode =s "rgb")
  then Raise (ValueError "SSIM works only with grayscale images")
  else if architecture =s "nasnet"
  then Raise (Exception_ "Nasnet ist not yet implemented.")
  else if Z.of_nat (length (found_files env (path_join (a_directory args) ["train"])
                              "training")) =? 0
  then Raise (ZeroDivisionError "integer division or modulo by zero")
  else if a_lr_find args >? 0
  then match typed_max_lr env with
       | Some _ => Return tt
       | None => Raise (ValueError "could not convert string to float")
       end
  else Raise (UnboundLocalError "max_lr").

(** ** What a run reads and writes *)

(** [save_dir], line 111. *)
Definition save_dir_of (env : Env) (args : Args) : string :=
  path_join (getcwd env)
    ["saved_models"; a_directory args; a_architecture args; upper (a_loss args);
     now_strftime env].

(** The names [main] joins to [save_dir]. *)
Definition artifact_names (args : Args) : list string :=
  [ "logs"; "inspection";
    ("CAE_" ++ a_architecture args ++ "_b" ++ str_of_int (a_batch args)) ++ ".h5";
    "lr_find_plot.png"; "loss_plot.png"; "lr_plot.png"; "setup.json" ].

(** The path an event writes to, if any. *)
Definition written_path (ev : Event) : option string :=
  match ev with
  | EvMakedirs p | EvSavefig p | EvSaveModel _ p | EvJsonDump p _
  | EvSaveImages p _ _ _ _ => Some p
  | _ => None
  end.

(** [train.py -d /data/capsule -a mvtec -b 2 -l l2 -c rgb --lr-find 1] *)
Definition args_absolute_lr : Args :=
  mkArgs "/data/capsule" "mvtec" 10000 2 "l2" "rgb" 1 None.

Definition train_files (env : Env) (args : Args) : list string :=
  found_files env (path_join (a_directory args) ["train"]) "training".

Definition validation_files (env : Env) (args : Args) : list string :=
  found_files env (path_join (a_directory args) ["train"]) "validation".

(** The model lines 87-97 build for an architecture and a color mode. *)
Definition requested_model (architecture color_mode : string) : option Model :=
  let '(channels, _, _) := set_channels_and_metrics color_mode in
  if architecture =s "mvtec" then option_map MvtecModel channels
  else if architecture =s "mvtec2" then option_map Mvtec2Model channels
  else if architecture =s "resnet" then Some ResnetModel
  else None.

(** The first batch of the shuffled validation iterator. *)
Definition inspected_files (env : Env) (args : Args) : list string :=
  firstn (Z.to_nat (a_batch args))
         (shuffled env (found_files env (path_join (a_directory args) ["train"])
                                    "validation")).

(** Image size, rescaling and preprocessing of an iterator, by architecture. *)
Definition preprocessing_of_architecture (architecture : string) (g : DirectoryIterator)
  : Prop :=
  ((architecture = "mvtec" \/ architecture = "mvtec2") /\
   it_target_size g = (256, 256) /\
   dg_rescale (it_datagen g) = Some (1 # 255)%Q /\
   dg_preprocessing_function (it_datagen g) = None)
  \/
  (architecture = "resnet" /\
   it_target_size g = (299, 299) /\
   dg_rescale (it_datagen g) = None /\
   dg_preprocessing_function (it_datagen g) = Some inception_resnet_v2_preprocess_input).

(** The model an event is about, if any. *)
Definition model_used (ev : Event) : option Model :=
  match ev with
  | EvBuildModel m | EvCompile m _ _ | EvGetLearner m _ _ _ | EvSaveModel m _
  | EvPredict m _ => Some m
  | _ => None
  end.

(** Whether a generator augments its images. *)
Definition augments (d : ImageDataGenerator) : bool :=
  negb (Qeq_bool (dg_rotation_range d) 0)
  || negb (Qeq_bool (dg_width_shift_range d) 0)
  || negb (Qeq_bool (dg_height_shift_range d) 0)
  || match dg_brightness_range d with Some _ => true | None => false end.

Definition main_run_inv (env : Env) (args : Args) (ev : Event) : Prop :=
  (forall p, written_path ev = Some p ->
             p = save_dir_of env args \/
             exists name, In name (artifact_names args) /\
                          p = path_join (save_dir_of env args) [name]) /\
  match ev with
  | EvBuildModel m => requested_model (a_architecture args) (a_color args) = Some m
  | EvFlowFromDirectory g =>
      it_directory g = path_join (a_directory args) ["train"] /\
      it_color_mode g = a_color args /\
      it_class_mode g = "input" /\
      it_filenames g = found_files env (it_directory g) (it_subset g) /\
      preprocessing_of_architecture (a_architecture args) g /\
      ((it_subset g = "training" /\ augments (it_datagen g) = true /\
        it_batch_size g = a_batch args /\ it_shuffle g = true)
       \/
       (it_subset g = "validation" /\ augments (it_datagen g) = false /\
        ((it_batch_size g = a_batch args /\ it_shuffle g = true) \/
         (it_batch_size g = Z.of_nat (length (validation_files env args)) /\
          it_shuffle g = false))))
  | EvCompile m _ ms =>
      requested_model (a_architecture args) (a_color args) = Some m /\
      ((a_color args = "grayscale" /\ ms = [ssim_metric]) \/
       (a_color args = "rgb" /\ ms = [mssim_metric]))
  | EvGetLearner m train_data val_data batch_size =>
      requested_model (a_architecture args) (a_color args) = Some m /\
      it_subset train_data = "training" /\ it_subset val_data = "validation" /\
      batch_size = a_batch args
  | EvFitOnecycle lr epochs =>
      typed_max_lr env = Some lr /\ 0 < a_lr_find args /\
      train_files env args <> [] /\
      epochs = a_nb_images args / Z.of_nat (length (train_files env args))
  | EvSaveModel m _ => requested_model (a_architecture args) (a_color args) = Some m
  | EvNext g =>
      it_subset g = "validation" /\ it_shuffle g = true /\
      it_batch_size g = a_batch args
  | EvPredict m x =>
      requested_model (a_architecture args) (a_color args) = Some m /\
      tensor_files x = inspected_files env args
  | EvCalculateResmaps x y _ =>
      tensor_files x = inspected_files env args /\
      tensor_files y = inspected_files env args
  | EvSaveImages _ t fs _ _ =>
      tensor_files t = inspected_files env args /\
      fs = found_files env (path_join (a_directory args) ["train"]) "validation"
  | EvJsonDump _ setup =>
      su_epochs setup = a_nb_images args / Z.of_nat (length (train_files env args)) /\
      su_loss setup = upper (a_loss args) /\
      su_nb_training_images setup = Z.of_nat (length (train_files env args)) /\
      su_nb_validation_images setup = Z.of_nat (length (validation_files env args))
  | _ => True
  end.

(** ** The directories a run leaves behind *)



(** ** The order of the calls *)

Inductive Stage : Type :=
| StBuildModel | StFlowFromDirectory | StCompile | StGetLearner | StFitOnecycle
| StSaveModel | StJsonDump | StNext | StPredict | StCalculateResmaps | StSaveImages.

Definition stage_of (ev : Event) : list Stage :=
  match ev with
  | EvBuildModel _ => [StBuildModel]
  | EvFlowFromDirectory _ => [StFlowFromDirectory]
  | EvCompile _ _ _ => [StCompile]
  | EvGetLearner _ _ _ _ => [StGetLearner]
  | EvFitOnecycle _ _ => [StFitOnecycle]
  | EvSaveModel _ _ => [StSaveModel]
  | EvJsonDump _ _ => [StJsonDump]
  | EvNext _ => [StNext]
  | EvPredict _ _ => [StPredict]
  | EvCalculateResmaps _ _ _ => [StCalculateResmaps]
  | EvSaveImages _ _ _ _ _ => [StSaveImages]
  | _ => []
  end.

(** The stages of a history, in order. *)
Definition stages (h : list Event) : list Stage := flat_map stage_of h.

(** The stages of a run that returns. *)
Definition pipeline : list Stage :=
  [ StBuildModel; StFlowFromDirectory; StFlowFromDirectory; StCompile; StGetLearner;
    StFitOnecycle; StSaveModel; StJsonDump; StFlowFromDirectory; StNext; StPredict;
    StCalculateResmaps; StSaveImages; StSaveImages ].

(** The stages of what [m] adds to the log satisfy [Q] together with the
    outcome. *)
Definition calls {A} (Q : Outcome A -> list Stage -> Prop) (m : M A) : Prop :=
  forall w, exists new,
    log (snd (m w)) = (new ++ log w)%list /\ Q (fst (m w)) (stages (rev new)).

(** * Properties *)

(** ** Rules for [post] *)

Section Post.

Variable P : Event -> Prop.

Lemma post_ret {A} (Q : Outcome A -> Prop) (a : A) :
  Q (Return a) -> post P Q (ret a).
Proof. intros HQ w. exists []. simpl. auto. Qed.

Lemma post_raise {A} (Q : Outcome A -> Prop) (e : exn) :
  Q (Raise e) -> post P Q (raise e).
Proof. intros HQ w. exists []. simpl. auto. Qed.

Lemma post_emit (Q : Outcome unit -> Prop) (ev : Event) :
  P ev -> Q (Return tt) -> post P Q (emit ev).
Proof. intros HP HQ w. exists [ev]. simpl. auto. Qed.

Lemma post_makedirs (Q : Outcome unit -> Prop) (path : string) :
  P (EvMakedirs path) -> Q (Return tt) -> post P Q (makedirs path).
Proof. intros HP HQ w. exists [EvMakedirs path]. simpl. auto. Qed.

Lemma post_isdir (Q : Outcome bool -> Prop) (path : string) :
  (forall b, Q (Return b)) -> post P Q (isdir path).
Proof. intros HQ w. exists []. simpl. auto. Qed.

Lemma post_bind {A B} (Q1 : Outcome A -> Prop) (Q : Outcome B -> Prop)
      (m : M A) (f : A -> M B) :
  post P Q1 m ->
  (forall a, Q1 (Return a) -> post P Q (f a)) ->
  (forall e, Q1 (Raise e) -> Q (Raise e)) ->
  post P Q (bind m f).
Proof.
  intros Hm Hf He w. unfold bind.
  destruct (Hm w) as (new1 & Hlog1 & Hall1 & HQ1).
  destruct (m w) as [[a | e] w1]; simpl in *.
  - destruct (Hf a HQ1 w1) as (new2 & Hlog2 & Hall2 & HQ2).
    exists (new2 ++ new1)%list. rewrite Hlog2, Hlog1, app_assoc.
    split; [reflexivity | split; [apply Forall_app; auto | exact HQ2]].
  - exists new1. auto.
Qed.

Lemma post_weaken {A} (Q Q' : Outcome A -> Prop) (m : M A) :
  post P Q m -> (forall o, Q o -> Q' o) -> post P Q' m.
Proof.
  intros Hm Himp w. destruct (Hm w) as (new & ? & ? & ?).
  exists new. auto.
Qed.

(** *** One statement of [main] at a time *)

Lemma bind_bind {A B C} (m : M A) (g : A -> M B) (f : B -> M C) (w : World) :
  bind (bind m g) f w = bind m (fun a => bind (g a) f) w.
Proof. unfold bind. destruct (m w) as [[a | e] w']; reflexivity. Qed.

Lemma step_assoc {A B C} (Q : Outcome C -> Prop)
      (m : M A) (g : A -> M B) (f : B -> M C) :
  post P Q (bind m (fun a => bind (g a) f)) -> post P Q (bind (bind m g) f).
Proof. intros H w. rewrite bind_bind. apply H. Qed.

Lemma step_ret {A B} (Q : Outcome B -> Prop) (a : A) (f : A -> M B) :
  post P Q (f a) -> post P Q (bind (ret a) f).
Proof. intros H w. apply H. Qed.

Lemma step_raise {A B} (Q : Outcome B -> Prop) (e : exn) (f : A -> M B) :
  Q (Raise e) -> post P Q (bind (raise e) f).
Proof. intros H w. exists []. simpl. auto. Qed.

Lemma step_emit {B} (Q : Outcome B -> Prop) (ev : Event) (f : unit -> M B) :
  P ev -> post P Q (f tt) -> post P Q (bind (emit ev) f).
Proof.
  intros HP Hf.
  apply post_bind with (Q1 := fun o => o = Return tt).
  - apply post_emit; auto.
  - intros [] _. exact Hf.
  - discriminate.
Qed.

Lemma step_makedirs {B} (Q : Outcome B -> Prop) (path : string) (f : unit -> M B) :
  P (EvMakedirs path) -> post P Q (f tt) -> post P Q (bind (makedirs path) f).
Proof.
  intros HP Hf.
  apply post_bind with (Q1 := fun o => o = Return tt).
  - apply post_makedirs; auto.
  - intros [] _. exact Hf.
  - discriminate.
Qed.

Lemma step_isdir {B} (Q : Outcome B -> Prop) (path : string) (f : bool -> M B) :
  (forall b, post P Q (f b)) -> post P Q (bind (isdir path) f).
Proof.
  intros Hf.
  apply post_bind with (Q1 := fun o => exists b, o = Return b).
  - apply post_isdir. eauto.
  - intros b _. apply Hf.
  - intros e [b Hb]. discriminate.
Qed.

Lemma step_local {A B} (Q : Outcome B -> Prop) (name : string) (v : option A)
      (f : A -> M B) :
  (forall a, v = Some a -> post P Q (f a)) ->
  (v = None -> Q (Raise (UnboundLocalError name))) ->
  post P Q (bind (local name v) f).
Proof.
  intros HS HN. destruct v as [a | ]; simpl.
  - apply step_ret. auto.
  - apply step_raise. auto.
Qed.

(** A statement that cannot raise and returns nothing. *)
Lemma step_quiet {B} (Q : Outcome B -> Prop) (m : M unit) (f : unit -> M B) :
  post P (fun o => o = Return tt) m -> post P Q (f tt) -> post P Q (bind m f).
Proof.
  intros Hm Hf. apply post_bind with (Q1 := fun o => o = Return tt).
  - exact Hm.
  - intros [] _. exact Hf.
  - discriminate.
Qed.

Lemma post_mkdir_unless (path : string) (b : bool) :
  P (EvMakedirs path) ->
  post P (fun o => o = Return tt) (if negb b then makedirs path else ret tt).
Proof.
  intros HP. destruct b; simpl.
  - apply post_ret. reflexivity.
  - apply post_makedirs; auto.
Qed.

(** From the judgement to a run. *)
Lemma post_run {A} (Q : Outcome A -> Prop) (m : M A) (ds : list string) :
  post P Q m ->
  Forall P (history (snd (m (init_world ds)))) /\ Q (fst (m (init_world ds))).
Proof.
  intros H. destruct (H (init_world ds)) as (new & Hlog & Hall & HQ).
  split; [ | exact HQ].
  unfold history. rewrite Hlog. simpl. rewrite app_nil_r.
  apply Forall_rev. exact Hall.
Qed.

End Post.

(** Runs the statement at the head of the computation. *)
Ltac step :=
  lazymatch goal with
  | |- post _ _ (bind (bind _ _) _) => apply step_assoc
  | |- post _ _ (bind (ret _) _) => apply step_ret
  | |- post _ _ (bind (raise _) _) => apply step_raise
  | |- post _ _ (bind (emit _) _) => apply step_emit
  | |- post _ _ (bind (print _) _) => unfold print at 1; apply step_emit
  | |- post _ _ (bind (makedirs _) _) => apply step_makedirs
  | |- post _ _ (bind (isdir _) _) => apply step_isdir; intros ?
  | |- post _ _ (bind (if negb _ then makedirs _ else ret tt) _) =>
      apply step_quiet; [apply post_mkdir_unless | ]
  | |- post _ _ (bind (local _ _) _) =>
      apply step_local;
      [ let a := fresh "a" in let H := fresh "H" in intros a H; try discriminate H
      | let H := fresh "H" in intros H; try discriminate H ]
  | |- post _ _ (bind (floordiv _ _) _) => unfold floordiv at 1
  | |- post _ _ (bind (flow_from_directory _ _ _ _ _ _ _ _ _) _) =>
      unfold flow_from_directory at 1
  | |- post _ _ (bind (next_inputs _ _) _) => unfold next_inputs at 1
  | |- post _ _ (bind (find_learning_rate _ _ _) _) =>
      unfold find_learning_rate at 1
  | |- post _ _ (bind (if ?b then _ else _) _) => destruct b eqn:?
  | |- post _ _ (bind (match ?x with _ => _ end) _) => destruct x eqn:?
  | |- post _ _ (match ?x with _ => _ end) => destruct x eqn:?
  | |- post _ _ (emit _) => apply post_emit
  | |- post _ _ (ret _) => apply post_ret
  | |- post _ _ (raise _) => apply post_raise
  end.

(** ** The calls of [main] *)

Lemma set_channels_and_metrics_cases (color_mode : string) :
  (color_mode = "grayscale" /\
   set_channels_and_metrics color_mode = (Some 1, Some "SSIM", Some [ssim_metric]))
  \/
  (color_mode = "rgb" /\
   set_channels_and_metrics color_mode = (Some 3, Some "MSSIM", Some [mssim_metric]))
  \/
  (color_mode <> "grayscale" /\ color_mode <> "rgb" /\
   set_channels_and_metrics color_mode = (None, None, None)).
Proof.
  unfold set_channels_and_metrics.
  destruct (color_mode =s "grayscale") eqn:Hg.
  - left. apply String.eqb_eq in Hg. auto.
  - destruct (color_mode =s "rgb") eqn:Hr.
    + right; left. apply String.eqb_eq in Hr. auto.
    + right; right. apply String.eqb_neq in Hg, Hr. auto.
Qed.

(** Case analysis on the color mode, with the locals it assigned. *)
Ltac color_cases args :=
  let Hc := fresh "Hcolor" in
  let Hs := fresh "Hset" in
  destruct (set_channels_and_metrics_cases (a_color args))
    as [[Hc Hs] | [[Hc Hs] | (Hc & _ & Hs)]];
  rewrite Hs in *;
  repeat match goal with
         | H : (_, _) = (_, _) |- _ => injection H as ? ?; subst
         | H : Some _ = Some _ |- _ => injection H as ?; subst
         | H : None = Some _ |- _ => discriminate H
         | H : Some _ = None |- _ => discriminate H
         end.

(** Every call [main] makes satisfies [main_inv], however the run ends. *)
Lemma main_inv_holds (env : Env) (args : Args) :
  post (main_inv env args) (fun _ => True) (main env args).
Proof.
  unfold main, check_input_arguments, build_model.
  repeat step.
  all: try exact I.
  all: try assumption.
  all: cbn [main_inv su_channels model_channels].
  all: try (split; [reflexivity | intros Hsuffix; try discriminate Hsuffix;
                                  repeat eexists;
                                  match goal with
                                  | H : (_ =s "rgb") = _ |- _ => rewrite H
                                  end; reflexivity]).
  all: try (left; reflexivity).
  all: match goal with
       | |- context [set_channels_and_metrics (a_color ?a)] => color_cases a
       end.
  all: try (rewrite Hcolor in *; simpl in *; discriminate).
  all: try (do 2 eexists; reflexivity).
  all: try (right; do 2 eexists; reflexivity).
  all: try (do 3 eexists; repeat split; reflexivity).
Qed.

(** The finder block is not entered when [lr_find <= 0]. *)
Ltac lr_off :=
  match goal with
  | H : (?z >? 0) = true, H' : ?z <= 0 |- _ =>
      exfalso; apply Z.gtb_lt in H; lia
  end.

(** Without the finder, [main] raises before any training, saving or
    inspection call. *)
Lemma main_without_lr_find (env : Env) (args : Args) :
  a_lr_find args <= 0 ->
  post (fun ev => training_saving_or_inspection ev = false)
       (fun o => exists e, o = Raise e)
       (main env args).
Proof.
  intros Hlr.
  unfold main, check_input_arguments, build_model.
  repeat (step; try lr_off).
  all: try reflexivity.
  all: try (eexists; reflexivity).
Qed.

Lemma table_valid_cases (architecture color_mode loss : string) :
  table_valid architecture color_mode loss = true ->
  In (architecture, color_mode, loss)
     [ ("mvtec", "grayscale", "SSIM"); ("mvtec", "grayscale", "L2");
       ("mvtec", "grayscale", "MSE"); ("mvtec2", "grayscale", "SSIM");
       ("mvtec2", "grayscale", "L2"); ("mvtec2", "grayscale", "MSE");
       ("mvtec", "rgb", "MSSIM"); ("mvtec", "rgb", "L2"); ("mvtec", "rgb", "MSE");
       ("mvtec2", "rgb", "MSSIM"); ("mvtec2", "rgb", "L2"); ("mvtec2", "rgb", "MSE");
       ("resnet", "rgb", "MSSIM"); ("resnet", "rgb", "L2"); ("resnet", "rgb", "MSE");
       ("nasnet", "rgb", "MSSIM"); ("nasnet", "rgb", "L2"); ("nasnet", "rgb", "MSE") ].
Proof.
  unfold table_valid.
  repeat match goal with
         | |- context [?a =s ?b] =>
             let E := fresh "E" in
             destruct (a =s b) eqn:E;
             [apply String.eqb_eq in E; subst | ]
         end;
    simpl; intros H; try discriminate H; tauto.
Qed.

(** Evaluates a closed test or scrutinee at the head of the computation. *)
Ltac eval_head :=
  match goal with
  | |- post _ _ (bind (if ?b then _ else _) _) =>
      let v := eval vm_compute in b in
      match v with
      | true => change b with true
      | false => change b with false
      end; cbv iota
  | |- post _ _ (match ?x with _ => _ end) =>
      let v := eval vm_compute in x in change x with v; cbv iota
  end.

(** [epochs] can be computed when training images were found. *)
Ltac no_samples :=
  match goal with
  | H : (it_samples _ =? 0) = true |- _ =>
      exfalso; apply Z.eqb_eq in H; unfold it_samples in H;
      cbn [it_filenames] in H;
      match goal with
      | Hne : _ <> [] |- _ => apply Hne; apply length_zero_iff_nil; lia
      end
  end.

(** For the arguments of the docstring's table, the first exception of a
    run without the finder is the one of [max_lr]. *)
Lemma main_stops_at_max_lr (env : Env) (args : Args) :
  a_lr_find args <= 0 ->
  table_valid (a_architecture args) (a_color args) (upper (a_loss args)) = true ->
  a_architecture args <> "nasnet" ->
  found_files env (path_join (a_directory args) ["train"]) "training" <> [] ->
  post (fun _ => True) (fun o => o = Raise (UnboundLocalError "max_lr"))
       (main env args).
Proof.
  destruct args as [dir arch nb b l color lr tag].
  cbn [a_lr_find a_architecture a_color a_loss a_directory].
  intros Hlr Hvalid Hnas Hfiles.
  apply table_valid_cases in Hvalid.
  unfold main, check_input_arguments, build_model.
  cbn [a_lr_find a_architecture a_color a_loss a_directory a_nb_images a_batch a_tag].
  simpl In in Hvalid.
  repeat (destruct Hvalid as [Hvalid | Hvalid]); try contradiction;
    injection Hvalid as <- <- Hloss; rewrite <- Hloss;
    try (exfalso; apply Hnas; reflexivity).
  all: repeat (first [progress eval_head | step]; try lr_off; try no_samples).
  all: try exact I.
  all: try reflexivity.
Qed.

(** ** The configuration checks *)

Lemma check_passes_or_raises (architecture color_mode loss : string) (w : World) :
  (invalid_combination architecture color_mode loss = false /\
   check_input_arguments architecture color_mode loss w = (Return tt, w))
  \/
  (invalid_combination architecture color_mode loss = true /\
   exists e, In e configuration_errors /\
             check_input_arguments architecture color_mode loss w = (Raise e, w)).
Proof.
  unfold invalid_combination, check_input_arguments, configuration_errors, bind.
  destruct ((architecture =s "resnet") && (color_mode =s "grayscale"));
    [right; split; [reflexivity | eexists; split; [ | reflexivity]; simpl; tauto] | ].
  destruct ((architecture =s "nasnet") && (color_mode =s "grayscale"));
    [right; split; [reflexivity | eexists; split; [ | reflexivity]; simpl; tauto] | ].
  destruct ((loss =s "MSSIM") && (color_mode =s "grayscale"));
    [right; split; [reflexivity | eexists; split; [ | reflexivity]; simpl; tauto] | ].
  destruct ((loss =s "SSIM") && (color_mode =s "rgb"));
    [right; split; [reflexivity | eexists; split; [ | reflexivity]; simpl; tauto] | ].
  left. split; reflexivity.
Qed.

Lemma main_check_raises (env : Env) (args : Args) (w : World) (e : exn) :
  check_input_arguments (a_architecture args) (a_color args) (upper (a_loss args)) w
  = (Raise e, w) ->
  main env args w = (Raise e, w).
Proof.
  intros H. unfold main. unfold bind at 1. rewrite H. reflexivity.
Qed.

(** C6: a rejected combination of loss, color mode and architecture makes
    [main] raise the check's [ValueError] at once: the exception reaches
    the caller, and the world is as it was (no model built, no directory
    created, nothing logged). *)
Theorem configuration_error_is_immediate (env : Env) (args : Args) (w : World) :
  invalid_combination (a_architecture args) (a_color args) (upper (a_loss args)) = true ->
  exists e, In e configuration_errors /\ main env args w = (Raise e, w).
Proof.
  intros Hbad.
  destruct (check_passes_or_raises (a_architecture args) (a_color args)
              (upper (a_loss args)) w) as [[Hok _] | [_ (e & Hin & Hraise)]].
  - rewrite Hok in Hbad. discriminate Hbad.
  - exists e. split; [exact Hin | ]. apply main_check_raises. exact Hraise.
Qed.

Lemma configuration_error_is_immediate_witness :
  invalid_combination (a_architecture args_resnet_grayscale)
    (a_color args_resnet_grayscale) (upper (a_loss args_resnet_grayscale)) = true /\
  exists e, In e configuration_errors /\
            main env0 args_resnet_grayscale (init_world ["/home/user"])
            = (Raise e, init_world ["/home/user"]).
Proof.
  split; [reflexivity | ].
  apply (configuration_error_is_immediate env0 args_resnet_grayscale
           (init_world ["/home/user"])).
  reflexivity.
Defined.

(** ** Runs that stop before anything is built *)

Lemma main_nasnet (env : Env) (args : Args) (w : World) :
  a_architecture args = "nasnet" ->
  check_input_arguments "nasnet" (a_color args) (upper (a_loss args)) w = (Return tt, w) ->
  main env args w = (Raise (Exception_ "Nasnet ist not yet implemented."), w).
Proof.
  intros Harch Hcheck. unfold main. rewrite Harch.
  unfold bind at 1. rewrite Hcheck.
  destruct (set_channels_and_metrics (a_color args)) as [[channels resmaps_mode] metrics].
  reflexivity.
Qed.

(** C9 (as amended): with architecture "nasnet" [main] never completes and
    changes nothing.  With color mode grayscale it raises the NasNet
    color-mode [ValueError]; with rgb and loss SSIM (in any letter case) it
    raises the SSIM [ValueError] of the checks; in every other case it
    raises "Nasnet ist not yet implemented." when the model is built. *)
Theorem nasnet_always_raises (env : Env) (args : Args) (w : World) :
  a_architecture args = "nasnet" ->
  main env args w =
  (Raise
     (if a_color args =s "grayscale"
      then ValueError "NasNet expects rgb images"
      else if (upper (a_loss args) =s "SSIM") && (a_color args =s "rgb")
           then ValueError "SSIM works only with grayscale images"
           else Exception_ "Nasnet ist not yet implemented."), w).
Proof.
  intros Harch.
  destruct (a_color args =s "grayscale") eqn:Hgray.
  - apply main_check_raises. rewrite Harch.
    unfold check_input_arguments, bind. rewrite Hgray. reflexivity.
  - destruct ((upper (a_loss args) =s "SSIM") && (a_color args =s "rgb")) eqn:Hssim.
    + apply main_check_raises. rewrite Harch.
      unfold check_input_arguments, bind. rewrite Hgray, Hssim.
      rewrite !andb_false_r. reflexivity.
    + apply main_nasnet; [exact Harch | ].
      unfold check_input_arguments, bind. rewrite Hgray, Hssim.
      rewrite !andb_false_r. reflexivity.
Qed.

Lemma nasnet_always_raises_witness :
  a_architecture args_nasnet_rgb = "nasnet" /\
  main env0 args_nasnet_rgb (init_world [])
  = (Raise (Exception_ "Nasnet ist not yet implemented."), init_world []).
Proof.
  split; [reflexivity | ].
  exact (nasnet_always_raises env0 args_nasnet_rgb (init_world []) eq_refl).
Defined.

(** C9 as stated fails: with rgb and loss ssim the run raises the SSIM
    [ValueError], not "Nasnet ist not yet implemented.". *)
Lemma nasnet_rgb_ssim_raises_value_error :
  a_architecture args_nasnet_ssim_rgb = "nasnet" /\
  a_color args_nasnet_ssim_rgb = "rgb" /\
  fst (run env0 args_nasnet_ssim_rgb [])
  = Raise (ValueError "SSIM works only with grayscale images") /\
  fst (run env0 args_nasnet_ssim_rgb [])
  <> Raise (Exception_ "Nasnet ist not yet implemented.").
Proof.
  repeat split. vm_compute. discriminate.
Qed.

(** C5 (as amended): loss "ssim" with color mode rgb, and loss "mssim"
    with color mode grayscale, make [main] raise a [ValueError] before
    anything else happens: "SSIM works only with grayscale images" in the
    first case; in the second "MSSIM works only with rgb images", unless
    the architecture is resnet or nasnet, whose own check comes first. *)
Theorem loss_color_mismatch_raises_value_error (env : Env) (args : Args) (w : World) :
  (upper (a_loss args) = "SSIM" -> a_color args = "rgb" ->
   main env args w = (Raise (ValueError "SSIM works only with grayscale images"), w))
  /\
  (upper (a_loss args) = "MSSIM" -> a_color args = "grayscale" ->
   main env args w =
   (Raise (ValueError
             (if a_architecture args =s "resnet" then "ResNet expects rgb images"
              else if a_architecture args =s "nasnet" then "NasNet expects rgb images"
              else "MSSIM works only with rgb images")), w)).
Proof.
  split; intros Hloss Hcolor; apply main_check_raises;
    unfold check_input_arguments, bind; rewrite Hloss, Hcolor; simpl.
  - rewrite !andb_false_r. reflexivity.
  - rewrite !andb_true_r.
    destruct (a_architecture args =s "resnet"); [reflexivity | ].
    destruct (a_architecture args =s "nasnet"); reflexivity.
Qed.

Lemma loss_color_mismatch_raises_value_error_witness :
  (main env0 args_ssim_rgb (init_world [])
   = (Raise (ValueError "SSIM works only with grayscale images"), init_world []))
  /\
  (main env0 args_mssim_grayscale (init_world [])
   = (Raise (ValueError "MSSIM works only with rgb images"), init_world [])).
Proof.
  split.
  - exact (proj1 (loss_color_mismatch_raises_value_error env0 args_ssim_rgb (init_world []))
             eq_refl eq_refl).
  - exact (proj2 (loss_color_mismatch_raises_value_error env0 args_mssim_grayscale
                    (init_world [])) eq_refl eq_refl).
Defined.

(** C5 as stated fails: the exception raised is a [ValueError], there is
    no [ChannelMismatchError]. *)
Lemma ssim_on_rgb_is_not_channel_mismatch :
  exists e, fst (run env0 args_ssim_rgb []) = Raise e /\
            exn_class e = "ValueError" /\
            exn_class e <> "ChannelMismatchError".
Proof.
  exists (ValueError "SSIM works only with grayscale images").
  repeat split. vm_compute. discriminate.
Qed.

(** ** Letter case of the loss argument *)

Lemma upper_char_pair (lo up : ascii) :
  letter_case_pair lo up -> upper_char lo = up /\ upper_char up = up.
Proof.
  intros [n Hn].
  do 26 (destruct n as [ | n]; [split; reflexivity | ]).
  exfalso. lia.
Qed.

Lemma upper_differ_only_in_case (s t : string) :
  differ_only_in_case s t -> upper s = upper t.
Proof.
  induction 1 as [ | c s t _ IH | lo up s t Hp _ IH | lo up s t Hp _ IH ]; simpl.
  - reflexivity.
  - rewrite IH. reflexivity.
  - destruct (upper_char_pair lo up Hp) as [Hlo Hup]. rewrite Hlo, Hup, IH. reflexivity.
  - destruct (upper_char_pair lo up Hp) as [Hlo Hup]. rewrite Hlo, Hup, IH. reflexivity.
Qed.

Lemma main_depends_on_upper_loss (env : Env) (args : Args) (l1 l2 : string) :
  upper l1 = upper l2 ->
  main env (with_loss args l1) = main env (with_loss args l2).
Proof.
  intros H. unfold main, with_loss.
  cbn [a_directory a_architecture a_nb_images a_batch a_loss a_color a_lr_find a_tag].
  rewrite H. reflexivity.
Qed.

(** C7: [main] looks at the loss argument only through [loss.upper()]: two
    invocations whose loss arguments differ only in letter case select the
    same loss function, pass or fail the checks alike, use the same
    save directory, and run identically from every world. *)
Theorem loss_is_case_insensitive (env : Env) (args : Args) (l1 l2 : string) (w : World) :
  differ_only_in_case l1 l2 ->
  set_loss_function (upper l1) = set_loss_function (upper l2) /\
  check_input_arguments (a_architecture args) (a_color args) (upper l1) w
  = check_input_arguments (a_architecture args) (a_color args) (upper l2) w /\
  path_join (getcwd env)
    ["saved_models"; a_directory args; a_architecture args; upper l1; now_strftime env]
  = path_join (getcwd env)
      ["saved_models"; a_directory args; a_architecture args; upper l2; now_strftime env] /\
  main env (with_loss args l1) w = main env (with_loss args l2) w.
Proof.
  intros Hcase. apply upper_differ_only_in_case in Hcase.
  rewrite (main_depends_on_upper_loss env args l1 l2 Hcase).
  rewrite Hcase. repeat split; reflexivity.
Qed.

Lemma ssim_SsIm_differ_only_in_case : differ_only_in_case "ssim" "SsIm".
Proof.
  apply doc_lower_upper; [exact (letter_case_pair_intro 18 ltac:(lia)) | ].
  apply doc_same.
  apply doc_lower_upper; [exact (letter_case_pair_intro 8 ltac:(lia)) | ].
  apply doc_same.
  apply doc_empty.
Defined.

Lemma loss_is_case_insensitive_witness :
  differ_only_in_case "ssim" "SsIm" /\
  main env0 (with_loss args_capsule_lr "ssim") (init_world [])
  = main env0 (with_loss args_capsule_lr "SsIm") (init_world []).
Proof.
  split; [exact ssim_SsIm_differ_only_in_case | ].
  exact (proj2 (proj2 (proj2
           (loss_is_case_insensitive env0 args_capsule_lr "ssim" "SsIm" (init_world [])
              ssim_SsIm_differ_only_in_case)))).
Defined.

(** ** Runs without the learning-rate finder *)

(** C8 (as amended): with [lr_find <= 0] the finder block is skipped and
    [max_lr] stays unassigned, so [main] never completes and makes no
    training, saving or inspection call.  For arguments of the docstring's
    table (architecture other than nasnet) and a training directory with
    images, the exception is the [UnboundLocalError] of [max_lr] at the
    one-cycle call; other runs are stopped by an earlier exception. *)
Theorem without_lr_find_main_never_trains (env : Env) (args : Args) (ds : list string) :
  a_lr_find args <= 0 ->
  (forall save_dir w,
      find_learning_rate env (a_lr_find args) save_dir w = (Return None, w)) /\
  (exists e, fst (run env args ds) = Raise e) /\
  Forall (fun ev => training_saving_or_inspection ev = false)
         (history (snd (run env args ds))) /\
  (table_valid (a_architecture args) (a_color args) (upper (a_loss args)) = true ->
   a_architecture args <> "nasnet" ->
   found_files env (path_join (a_directory args) ["train"]) "training" <> [] ->
   fst (run env args ds) = Raise (UnboundLocalError "max_lr")).
Proof.
  intros Hlr. split; [ | split; [ | split]].
  - intros save_dir w. unfold find_learning_rate.
    destruct (a_lr_find args >? 0) eqn:Hgt; [ | reflexivity].
    apply Z.gtb_lt in Hgt. lia.
  - apply (post_run _ _ (main env args) ds (main_without_lr_find env args Hlr)).
  - apply (post_run _ _ (main env args) ds (main_without_lr_find env args Hlr)).
  - intros Hvalid Hnas Hfiles.
    apply (post_run _ _ (main env args) ds
             (main_stops_at_max_lr env args Hlr Hvalid Hnas Hfiles)).
Qed.

Lemma without_lr_find_main_never_trains_witness :
  a_lr_find args_capsule <= 0 /\
  fst (run env0 args_capsule []) = Raise (UnboundLocalError "max_lr") /\
  Forall (fun ev => training_saving_or_inspection ev = false)
         (history (snd (run env0 args_capsule []))).
Proof.
  assert (Hlr : a_lr_find args_capsule <= 0) by (simpl; lia).
  destruct (without_lr_find_main_never_trains env0 args_capsule [] Hlr)
    as (_ & _ & Hquiet & Hexact).
  split; [exact Hlr | split; [ | exact Hquiet]].
  apply Hexact; [reflexivity | discriminate | discriminate].
Defined.

(** C8 as stated fails: a run with [lr_find <= 0] that the checks reject
    raises their [ValueError], not an unbound-variable error. *)
Lemma without_lr_find_value_error_comes_first :
  a_lr_find args_resnet_grayscale <= 0 /\
  fst (run env0 args_resnet_grayscale []) = Raise (ValueError "ResNet expects rgb images") /\
  forall var, fst (run env0 args_resnet_grayscale []) <> Raise (UnboundLocalError var).
Proof.
  split; [simpl; lia | split; [reflexivity | ]].
  intros var. vm_compute. discriminate.
Qed.

(** A run with the finder switched on can complete. *)
Example run_with_lr_find_completes :
  0 < a_lr_find args_capsule_lr /\ fst (run env0 args_capsule_lr []) = Return tt.
Proof. split; [simpl; lia | reflexivity]. Qed.

(** ** The objective handed to the optimizer *)

Lemma set_loss_function_range (loss : string) (objective : LossObjective) :
  set_loss_function loss = Some objective ->
  In objective [ssim_loss; mssim_loss; l2_loss; keras_loss "mean_squared_error"].
Proof.
  unfold set_loss_function.
  destruct (loss =s "SSIM"); [intros [= <-]; simpl; tauto | ].
  destruct (loss =s "MSSIM"); [intros [= <-]; simpl; tauto | ].
  destruct (loss =s "L2"); [intros [= <-]; simpl; tauto | ].
  destruct (loss =s "MSE"); [intros [= <-]; simpl; tauto | ].
  discriminate.
Qed.

Lemma main_inv_run (env : Env) (args : Args) (ds : list string) (ev : Event) :
  In ev (history (snd (run env args ds))) -> main_inv env args ev.
Proof.
  intros Hin.
  destruct (post_run _ _ (main env args) ds (main_inv_holds env args)) as [Hall _].
  rewrite Forall_forall in Hall. apply Hall. exact Hin.
Qed.

(** C1: each of the loss values ssim, mssim, l2 and mse selects its own
    objective, and whenever [main] compiles the model the objective it
    passes is the one selected by the loss argument, one of these four. *)
Theorem loss_selects_its_objective :
  set_loss_function (upper "ssim") = Some ssim_loss /\
  set_loss_function (upper "mssim") = Some mssim_loss /\
  set_loss_function (upper "l2") = Some l2_loss /\
  set_loss_function (upper "mse") = Some (keras_loss "mean_squared_error") /\
  forall env args ds m objective ms,
    In (EvCompile m objective ms) (history (snd (run env args ds))) ->
    set_loss_function (upper (a_loss args)) = Some objective /\
    In objective [ssim_loss; mssim_loss; l2_loss; keras_loss "mean_squared_error"].
Proof.
  repeat (split; [reflexivity | ]).
  intros env args ds m objective ms Hin.
  apply main_inv_run in Hin. simpl in Hin.
  split; [exact Hin | exact (set_loss_function_range _ _ Hin)].
Qed.

Lemma loss_selects_its_objective_witness :
  In (EvCompile (MvtecModel 1) ssim_loss [ssim_metric])
     (history (snd (run env0 args_capsule_lr []))) /\
  set_loss_function (upper (a_loss args_capsule_lr)) = Some ssim_loss.
Proof.
  refine (let H := _ in
          conj H (proj1 (proj2 (proj2 (proj2 (proj2 loss_selects_its_objective)))
                           env0 args_capsule_lr [] _ _ _ H))).
  vm_compute. repeat (first [left; reflexivity | right]).
Defined.

(** ** Color mode, channels and the residual maps *)

(** C3: color mode grayscale selects one channel and resmaps mode SSIM,
    rgb selects three channels and MSSIM; the mvtec models are built with
    that channel count, [setup.json] records it, and [calculate_resmaps] is
    called with that mode. *)
Theorem resmaps_mode_follows_color_mode :
  set_channels_and_metrics "grayscale" = (Some 1, Some "SSIM", Some [ssim_metric]) /\
  set_channels_and_metrics "rgb" = (Some 3, Some "MSSIM", Some [mssim_metric]) /\
  forall env args ds,
    (forall x y mode,
        In (EvCalculateResmaps x y mode) (history (snd (run env args ds))) ->
        (a_color args = "grayscale" /\ mode = "SSIM") \/
        (a_color args = "rgb" /\ mode = "MSSIM")) /\
    (forall path setup,
        In (EvJsonDump path setup) (history (snd (run env args ds))) ->
        (a_color args = "grayscale" /\ su_channels setup = 1) \/
        (a_color args = "rgb" /\ su_channels setup = 3)) /\
    (forall m,
        In (EvBuildModel m) (history (snd (run env args ds))) ->
        m = ResnetModel \/
        (a_color args = "grayscale" /\ model_channels m = 1) \/
        (a_color args = "rgb" /\ model_channels m = 3)).
Proof.
  split; [reflexivity | split; [reflexivity | ]].
  intros env args ds. split; [ | split].
  - intros x y mode Hin. apply main_inv_run in Hin. simpl in Hin.
    destruct Hin as (g & m & ms & _ & _ & _ & Hset).
    destruct (set_channels_and_metrics_cases (a_color args))
      as [[Hc Hs] | [[Hc Hs] | (_ & _ & Hs)]];
      rewrite Hs in Hset; inversion Hset; auto.
  - intros path setup Hin. apply main_inv_run in Hin. simpl in Hin.
    destruct Hin as (mode & ms & Hset).
    destruct (set_channels_and_metrics_cases (a_color args))
      as [[Hc Hs] | [[Hc Hs] | (_ & _ & Hs)]];
      rewrite Hs in Hset; inversion Hset; auto.
  - intros m Hin. apply main_inv_run in Hin. simpl in Hin.
    destruct Hin as [Hres | (mode & ms & Hset)]; [left; exact Hres | right].
    destruct (set_channels_and_metrics_cases (a_color args))
      as [[Hc Hs] | [[Hc Hs] | (_ & _ & Hs)]];
      rewrite Hs in Hset; inversion Hset; auto.
Qed.

Lemma resmaps_mode_follows_color_mode_witness :
  exists x y mode,
    In (EvCalculateResmaps x y mode) (history (snd (run env0 args_capsule_rgb_lr []))) /\
    ((a_color args_capsule_rgb_lr = "grayscale" /\ mode = "SSIM") \/
     (a_color args_capsule_rgb_lr = "rgb" /\ mode = "MSSIM")).
Proof.
  refine (let H := _ in
          ex_intro _ _ (ex_intro _ _ (ex_intro _ _
            (conj H (proj1 (proj2 (proj2 resmaps_mode_follows_color_mode)
                              env0 args_capsule_rgb_lr []) _ _ _ H))))).
  vm_compute. repeat (first [left; reflexivity | right]).
Defined.

Lemma it_channels_of_color (g : DirectoryIterator) :
  (it_color_mode g = "grayscale" -> it_channels g = 1) /\
  (it_color_mode g = "rgb" -> it_channels g = 3).
Proof.
  unfold it_channels. split; intros H; rewrite H; reflexivity.
Qed.

(** C10: whenever [main] calls [calculate_resmaps], the mode it passes is
    SSIM exactly when [channels] is 1 and MSSIM exactly when it is 3, and
    both image batches it passes have [channels] channels. *)
Theorem resmaps_mode_matches_channels
    (env : Env) (args : Args) (ds : list string) (x y : Tensor) (mode : string) :
  In (EvCalculateResmaps x y mode) (history (snd (run env args ds))) ->
  exists channels ms,
    set_channels_and_metrics (a_color args) = (Some channels, Some mode, Some ms) /\
    image_channels x = Some channels /\
    image_channels y = Some channels /\
    (mode = "SSIM" <-> channels = 1) /\
    (mode = "MSSIM" <-> channels = 3).
Proof.
  intros Hin. apply main_inv_run in Hin. simpl in Hin.
  destruct Hin as (g & m & ms & Hx & Hy & Hg & Hset).
  exists (model_channels m), ms.
  assert (Hcol : it_color_mode g = a_color args) by (rewrite Hg; reflexivity).
  destruct (it_channels_of_color g) as [Hgray Hrgb].
  subst x y. simpl image_channels.
  destruct (set_channels_and_metrics_cases (a_color args))
    as [[Hc Hs] | [[Hc Hs] | (_ & _ & Hs)]];
    rewrite Hs in Hset; inversion Hset as [[Hch Hmode Hms]]; rewrite Hc in Hcol.
  - rewrite (Hgray Hcol), Hs.
    repeat split; try reflexivity; intros; discriminate.
  - rewrite (Hrgb Hcol), Hs.
    repeat split; try reflexivity; intros; discriminate.
Qed.

Lemma resmaps_mode_matches_channels_witness :
  exists x y mode,
    In (EvCalculateResmaps x y mode) (history (snd (run env0 args_capsule_lr []))) /\
    exists channels ms,
      set_channels_and_metrics (a_color args_capsule_lr)
      = (Some channels, Some mode, Some ms) /\
      image_channels x = Some channels /\
      image_channels y = Some channels /\
      (mode = "SSIM" <-> channels = 1) /\
      (mode = "MSSIM" <-> channels = 3).
Proof.
  refine (let H := _ in
          ex_intro _ _ (ex_intro _ _ (ex_intro _ _
            (conj H (resmaps_mode_matches_channels env0 args_capsule_lr [] _ _ _ H))))).
  vm_compute. repeat (first [left; reflexivity | right]).
Defined.

(** ** The images given to [calculate_resmaps] *)

Lemma resmaps_input_is_one_batch
    (env : Env) (args : Args) (ds : list string) (x y : Tensor) (mode : string) :
  In (EvCalculateResmaps x y mode) (history (snd (run env args ds))) ->
  (length (tensor_files x) <= Z.to_nat (a_batch args))%nat.
Proof.
  intros Hin. apply main_inv_run in Hin. simpl in Hin.
  destruct Hin as (g & m & ms & Hx & _ & Hg & _).
  subst x. simpl tensor_files. unfold next_files.
  replace (it_batch_size g) with (a_batch args) by (rewrite Hg; reflexivity).
  apply firstn_le_length.
Qed.

(** C2, at batch size 2 with three validation images: the run completes,
    it builds the unshuffled inspection iterator over all three images but
    never reads it, and the one call of [calculate_resmaps] gets a single
    shuffled batch of two images of the validation iterator. *)
Theorem inspection_reads_one_validation_batch :
  let h := history (snd (run env0 args_capsule_lr [])) in
  fst (run env0 args_capsule_lr []) = Return tt /\
  found_files env0 "mvtec/capsule/train" "validation" = ["v1.png"; "v2.png"; "v3.png"] /\
  iterators_built h
  = [("training", 2, true); ("validation", 2, true); ("validation", 3, false)] /\
  iterators_read h = [("validation", 2, true)] /\
  resmaps_inputs h = [["v3.png"; "v2.png"]].
Proof.
  vm_compute. repeat split; reflexivity.
Qed.

(** ** How a run ends *)

Ltac outcome_leaf :=
  repeat match goal with
         | H : (it_samples _ =? 0) = _ |- _ =>
             unfold it_samples in H; cbn [it_filenames] in H
         end;
  repeat match goal with
         | H : ?b = true |- context [?b] => rewrite H
         | H : ?b = false |- context [?b] => rewrite H
         | H : typed_max_lr _ = _ |- _ => rewrite H
         end;
  reflexivity.

(** On the architectures, color modes and losses of the parser, the outcome
    of [main] is the predicted one. *)
Lemma main_outcome_on_choices (env : Env) (args : Args) :
  In (a_architecture args) ["mvtec"; "mvtec2"; "resnet"; "nasnet"] ->
  In (a_color args) ["rgb"; "grayscale"] ->
  In (upper (a_loss args)) ["MSSIM"; "SSIM"; "L2"; "MSE"] ->
  post (fun _ => True) (fun o => o = predicted_outcome env args) (main env args).
Proof.
  destruct args as [dir arch nb b l color lr tag].
  unfold main, predicted_outcome, check_input_arguments, build_model.
  cbn [a_lr_find a_architecture a_color a_loss a_directory a_nb_images a_batch a_tag].
  intros Harch Hcolor Hloss. simpl In in *.
  repeat (destruct Harch as [Harch | Harch]); try contradiction;
    repeat (destruct Hcolor as [Hcolor | Hcolor]); try contradiction;
    repeat (destruct Hloss as [Hloss | Hloss]); try contradiction;
    subst arch color; rewrite <- Hloss.
  all: repeat (first [progress eval_head | step]).
  all: try exact I.
  all: try outcome_leaf.
Qed.

Lemma argparse_accepts_choices (args : Args) :
  argparse_accepts args = true ->
  In (a_architecture args) ["mvtec"; "mvtec2"; "resnet"; "nasnet"] /\
  In (a_color args) ["rgb"; "grayscale"] /\
  In (upper (a_loss args)) ["MSSIM"; "SSIM"; "L2"; "MSE"].
Proof.
  unfold argparse_accepts. intros H.
  apply andb_prop in H. destruct H as [H Hcolor].
  apply andb_prop in H. destruct H as [Harch Hloss].
  apply existsb_exists in Harch, Hloss, Hcolor.
  destruct Harch as (a & Ha & Ea). destruct Hloss as (l & Hl & El).
  destruct Hcolor as (c & Hc & Ec).
  apply String.eqb_eq in Ea, El, Ec. subst a l c.
  split; [exact Ha | split; [exact Hc | ]].
  simpl in Hl. simpl.
  repeat (destruct Hl as [Hl | Hl]); try contradiction; rewrite <- Hl; simpl; tauto.
Qed.

(** X1: on a command line the parser accepts, [main] reads none of its
    conditionally assigned locals ([channels], [resmaps_mode], [metrics],
    [model], [loss_function], [rescale], [shape],
    [preprocessing_function], [preprocessing]) before it is assigned: the
    only [UnboundLocalError] a run can end with is the one of [max_lr],
    and only when the finder is off. *)
Theorem accepted_run_reads_no_unbound_local
    (env : Env) (args : Args) (ds : list string) (var : string) :
  argparse_accepts args = true ->
  fst (run env args ds) = Raise (UnboundLocalError var) ->
  var = "max_lr" /\ a_lr_find args <= 0.
Proof.
  intros Hacc Hraise.
  destruct (argparse_accepts_choices args Hacc) as (Ha & Hc & Hl).
  destruct (post_run _ _ (main env args) ds (main_outcome_on_choices env args Ha Hc Hl))
    as [_ Hout].
  unfold run in Hraise. rewrite Hout in Hraise. unfold predicted_outcome in Hraise.
  repeat match type of Hraise with
         | (if ?b then _ else _) = _ =>
             let E := fresh "E" in destruct b eqn:E; try discriminate Hraise
         | match ?x with _ => _ end = _ => destruct x; try discriminate Hraise
         end.
  injection Hraise as <-. split; [reflexivity | ].
  match goal with
  | H : (a_lr_find args >? 0) = false |- _ =>
      rewrite Z.gtb_ltb in H; apply Z.ltb_ge in H; exact H
  end.
Qed.

Lemma accepted_run_reads_no_unbound_local_witness :
  argparse_accepts args_capsule = true /\
  fst (run env0 args_capsule []) = Raise (UnboundLocalError "max_lr") /\
  a_lr_find args_capsule <= 0.
Proof.
  split; [reflexivity | split; [reflexivity | ]].
  exact (proj2 (accepted_run_reads_no_unbound_local env0 args_capsule [] "max_lr"
                  eq_refl eq_refl)).
Defined.

Lemma set_loss_function_some (loss : string) (objective : LossObjective) :
  set_loss_function loss = Some objective ->
  In loss ["MSSIM"; "SSIM"; "L2"; "MSE"].
Proof.
  unfold set_loss_function.
  destruct (loss =s "SSIM") eqn:E1;
    [apply String.eqb_eq in E1; rewrite E1; simpl; tauto | ].
  destruct (loss =s "MSSIM") eqn:E2;
    [apply String.eqb_eq in E2; rewrite E2; simpl; tauto | ].
  destruct (loss =s "L2") eqn:E3;
    [apply String.eqb_eq in E3; rewrite E3; simpl; tauto | ].
  destruct (loss =s "MSE") eqn:E4;
    [apply String.eqb_eq in E4; rewrite E4; simpl; tauto | ].
  discriminate.
Qed.

(** A run that returns was given an architecture that can be built, a
    color mode and a loss that [main] knows. *)
Lemma main_returns_only_on_choices (env : Env) (args : Args) :
  post (fun _ => True)
       (fun o => o = Return tt ->
                 In (a_architecture args) ["mvtec"; "mvtec2"; "resnet"; "nasnet"] /\
                 In (a_color args) ["rgb"; "grayscale"] /\
                 In (upper (a_loss args)) ["MSSIM"; "SSIM"; "L2"; "MSE"])
       (main env args).
Proof.
  unfold main, check_input_arguments, build_model.
  repeat step.
  all: try exact I.
  all: try (intros Hret; discriminate Hret).
  all: intros _.
  all: repeat match goal with
              | H : (_ =s _) = true |- _ => apply String.eqb_eq in H
              end.
  all: split; [ | split];
    [ match goal with H : a_architecture _ = _ |- _ => rewrite H; simpl; tauto end
    | match goal with
      | |- In (a_color ?a) _ =>
          destruct (set_channels_and_metrics_cases (a_color a))
            as [[Hc Hs] | [[Hc Hs] | (_ & _ & Hs)]];
          [ rewrite Hc; simpl; tauto | rewrite Hc; simpl; tauto | ]
      end
    | match goal with
      | H : set_loss_function _ = Some _ |- _ => exact (set_loss_function_some _ _ H)
      end ].
  all: match goal with
       | H : set_channels_and_metrics ?c = (?x, _, _) |- _ =>
           is_var x; rewrite Hs in H
       end.
  all: repeat match goal with
              | H : (_, _) = (_, _) |- _ => injection H as ? ?; subst
              | H : None = Some _ |- _ => discriminate H
              | H : Some _ = None |- _ => discriminate H
              end.
Qed.

Lemma no_samples_iff_nil {A} (files : list A) :
  (Z.of_nat (length files) =? 0) = true <-> files = [].
Proof.
  rewrite Z.eqb_eq. destruct files; simpl; split; intros H;
    try reflexivity; try discriminate H; lia.
Qed.

Lemma predicted_return_iff (env : Env) (args : Args) :
  In (a_architecture args) ["mvtec"; "mvtec2"; "resnet"; "nasnet"] ->
  In (a_color args) ["rgb"; "grayscale"] ->
  In (upper (a_loss args)) ["MSSIM"; "SSIM"; "L2"; "MSE"] ->
  predicted_outcome env args = Return tt <->
  (table_valid (a_architecture args) (a_color args) (upper (a_loss args)) = true /\
   a_architecture args <> "nasnet" /\
   found_files env (path_join (a_directory args) ["train"]) "training" <> [] /\
   0 < a_lr_find args /\
   typed_max_lr env <> None).
Proof.
  intros Harch Hcolor Hloss. unfold predicted_outcome.
  pose proof (no_samples_iff_nil
                (found_files env (path_join (a_directory args) ["train"]) "training"))
    as Hfiles.
  destruct (Z.of_nat (length (found_files env (path_join (a_directory args) ["train"])
                                "training")) =? 0) eqn:Hs.
  - (* no training image *)
    assert (Hnil : found_files env (path_join (a_directory args) ["train"]) "training" = [])
      by (apply Hfiles; reflexivity).
    split.
    + intros H.
      repeat match type of H with
             | (if ?b then _ else _) = _ => destruct b; try discriminate H
             end.
    + intros (_ & _ & Hne & _). contradiction.
  - assert (Hne : found_files env (path_join (a_directory args) ["train"]) "training" <> []).
    { intros Hnil. apply Hfiles in Hnil. discriminate Hnil. }
    destruct (a_lr_find args >? 0) eqn:Hlr.
    + apply Z.gtb_lt in Hlr.
      destruct (typed_max_lr env) as [v | ] eqn:Htyped.
      * simpl In in *.
        repeat (destruct Harch as [Harch | Harch]); try contradiction;
          repeat (destruct Hcolor as [Hcolor | Hcolor]); try contradiction;
          repeat (destruct Hloss as [Hloss | Hloss]); try contradiction;
          rewrite <- Harch, <- Hcolor, <- Hloss; simpl;
          (split;
           [ intros H; try discriminate H;
             repeat split; try assumption; try discriminate
           | intros (Hv & Hn & _); try discriminate Hv;
             try reflexivity; exfalso; apply Hn; reflexivity ]).
      * split.
        -- intros H.
           repeat match type of H with
                  | (if ?b then _ else _) = _ => destruct b; try discriminate H
                  end.
        -- intros (_ & _ & _ & _ & Hn). exfalso. apply Hn. reflexivity.
    + split.
      * intros H.
        repeat match type of H with
               | (if ?b then _ else _) = _ => destruct b; try discriminate H
               end.
      * intros (_ & _ & _ & Hpos & _). apply Z.gtb_lt in Hpos.
        rewrite Hpos in Hlr. discriminate Hlr.
Qed.

(** X2: with a loss argument of ASCII characters, [main] returns only if
    the architecture, the color mode and the upper-cased loss are a
    combination of the docstring's table other than nasnet, training
    images were found, the finder is on and the text typed at its prompt
    is a float. *)
Theorem main_returns_only_if (env : Env) (args : Args) (ds : list string) :
  is_ascii_text (a_loss args) = true ->
  fst (run env args ds) = Return tt ->
  table_valid (a_architecture args) (a_color args) (upper (a_loss args)) = true /\
  a_architecture args <> "nasnet" /\
  found_files env (path_join (a_directory args) ["train"]) "training" <> [] /\
  0 < a_lr_find args /\
  typed_max_lr env <> None.
Proof.
  intros _ Hret.
  destruct (post_run _ _ (main env args) ds (main_returns_only_on_choices env args))
    as [_ Hchoices].
  destruct (Hchoices Hret) as (Ha & Hc & Hl).
  apply (predicted_return_iff env args Ha Hc Hl).
  rewrite <- Hret. symmetry.
  apply (post_run _ _ (main env args) ds (main_outcome_on_choices env args Ha Hc Hl)).
Qed.

Lemma main_returns_only_if_witness :
  is_ascii_text (a_loss args_capsule_lr) = true /\
  fst (run env0 args_capsule_lr []) = Return tt /\
  table_valid (a_architecture args_capsule_lr) (a_color args_capsule_lr)
    (upper (a_loss args_capsule_lr)) = true /\
  0 < a_lr_find args_capsule_lr.
Proof.
  destruct (main_returns_only_if env0 args_capsule_lr [] eq_refl eq_refl)
    as (Hv & _ & _ & Hlr & _).
  split; [reflexivity | split; [reflexivity | split; [exact Hv | exact Hlr]]].
Defined.

(** ** What a run reads and writes *)

Ltac tidy :=
  repeat match goal with
         | H : (_, _) = (_, _) |- _ => injection H as ? ?
         | H : Some _ = Some _ |- _ => injection H as ?
         | H : ?x = _ |- _ => is_var x; subst x
         | H : _ = ?x |- _ => is_var x; subst x
         | H : (_ =s _) = true |- _ => apply String.eqb_eq in H
         end.

(** What the architecture branch taken says about the preprocessing. *)
Ltac arch_facts :=
  match goal with
  | Ha : a_architecture _ = _ |- _ => rewrite Ha in *
  end;
  try match goal with
      | Hp : set_preprocessing _ = _ |- _ =>
          vm_compute in Hp; injection Hp as ? ? ? ?
      end;
  tidy.

Ltac model_case :=
  unfold requested_model;
  match goal with
  | H : set_channels_and_metrics _ = _ |- _ => rewrite H; reflexivity
  end.

Ltac files_found :=
  match goal with
  | H : (it_samples _ =? 0) = false |- _ <> [] =>
      let Hnil := fresh "Hnil" in
      unfold it_samples in H; cbn [it_filenames] in H;
      intros Hnil; rewrite Hnil in H; discriminate H
  end.

Ltac flow_case :=
  split; [reflexivity | ]; split; [reflexivity | ]; split; [reflexivity | ];
  split; [reflexivity | ]; split;
  [ unfold preprocessing_of_architecture;
    cbn [it_target_size it_datagen dg_rescale dg_preprocessing_function];
    first [ left; split;
            [ first [left; reflexivity | right; reflexivity]
            | repeat split; reflexivity ]
          | right; repeat split; reflexivity ]
  | first [ left; repeat split; reflexivity
          | right; split; [reflexivity | ]; split; [reflexivity | ];
            first [left; split; reflexivity | right; split; reflexivity] ] ].

Ltac metrics_case :=
  match goal with
  | H : set_channels_and_metrics ?c = _ |- _ =>
      let Hc := fresh "Hc" in
      let Hs := fresh "Hs" in
      destruct (set_channels_and_metrics_cases c)
        as [[Hc Hs] | [[Hc Hs] | (_ & _ & Hs)]];
      rewrite Hs in H; injection H as ? ? ?; tidy;
      [ left; split; [exact Hc | reflexivity]
      | right; split; [exact Hc | reflexivity]
      | try discriminate ]
  end.

(** No preprocessing is set for an architecture [main] does not know. *)
Ltac unknown_arch :=
  exfalso;
  match goal with
  | Hp : set_preprocessing _ = _ |- _ =>
      unfold set_preprocessing in Hp;
      repeat match goal with
             | H : (_ =s _) = false |- _ => rewrite H in Hp
             end;
      simpl in Hp; discriminate Hp
  end.

Ltac fit_case :=
  split; [assumption | ];
  split; [apply Z.gtb_lt; assumption | ];
  split; [files_found | reflexivity].

Lemma main_run_inv_holds (env : Env) (args : Args) :
  post (main_run_inv env args) (fun _ => True) (main env args).
Proof.
  unfold main, check_input_arguments, build_model.
  repeat (step; try lr_off).
  all: try exact I.
  all: cbn [main_run_inv written_path].
  all: split.
  all: try (let p := fresh "p" in
            let Hp := fresh "Hp" in
            intros p Hp; try discriminate Hp; injection Hp as <-;
            first [ left; reflexivity
                  | right; refine (ex_intro _ _ (conj _ eq_refl));
                    unfold artifact_names;
                    repeat (first [left; reflexivity | right]) ]).
  all: try exact I.
  all: cbn [it_directory it_color_mode it_class_mode it_filenames it_subset
            it_batch_size it_shuffle it_datagen it_target_size su_epochs su_loss
            su_nb_training_images su_nb_validation_images].
  all: unfold train_files, validation_files, inspected_files, it_samples, next_files.
  all: cbn [tensor_files it_shuffle it_batch_size it_filenames].
  all: cbn [it_filenames].
  all: tidy.
  all: try (repeat split; reflexivity).
  all: try arch_facts.
  all: try model_case.
  all: try flow_case.
  all: try fit_case.
  all: try (split; [model_case | repeat split; reflexivity]).
  all: try (split; [model_case | metrics_case]).
  all: try (split; [model_case | reflexivity]).
  all: unknown_arch.
Qed.

Lemma main_run_inv_run (env : Env) (args : Args) (ds : list string) (ev : Event) :
  In ev (history (snd (run env args ds))) -> main_run_inv env args ev.
Proof.
  intros Hin.
  destruct (post_run _ _ (main env args) ds (main_run_inv_holds env args)) as [Hall _].
  rewrite Forall_forall in Hall. apply Hall. exact Hin.
Qed.

Lemma prefix_app (a s : string) : String.prefix a (a ++ s) = true.
Proof.
  induction a as [ | c a IH]; simpl.
  - destruct s; reflexivity.
  - destruct (ascii_dec c c) as [_ | Hne]; [exact IH | exfalso; apply Hne; reflexivity].
Qed.

Lemma prefix_refl (a : string) : String.prefix a a = true.
Proof.
  induction a as [ | c a IH]; simpl.
  - reflexivity.
  - destruct (ascii_dec c c) as [_ | Hne]; [exact IH | exfalso; apply Hne; reflexivity].
Qed.

Lemma join2_prefix (a b : string) :
  startswith_sep b = false -> String.prefix a (join2 a b) = true.
Proof.
  intros Hb. unfold join2. rewrite Hb.
  destruct ((a =s "") || endswith_sep a); apply prefix_app.
Qed.

Lemma artifact_names_relative (args : Args) (name : string) :
  In name (artifact_names args) -> startswith_sep name = false.
Proof.
  unfold artifact_names. simpl.
  intros H. repeat (destruct H as [H | H]); try contradiction; rewrite <- H; reflexivity.
Qed.

(** X3: whatever [main] writes (the directories it makes, the model file,
    the plots, [setup.json], the inspection images) is [save_dir] itself
    or one of seven fixed names joined to it, and so lies under
    [save_dir]. *)
Theorem artifacts_stay_under_save_dir
    (env : Env) (args : Args) (ds : list string) (ev : Event) (p : string) :
  In ev (history (snd (run env args ds))) ->
  written_path ev = Some p ->
  (p = save_dir_of env args \/
   exists name, In name (artifact_names args) /\
                p = path_join (save_dir_of env args) [name]) /\
  String.prefix (save_dir_of env args) p = true.
Proof.
  intros Hin Hp. apply main_run_inv_run in Hin. destruct Hin as [Hpaths _].
  specialize (Hpaths p Hp). split; [exact Hpaths | ].
  destruct Hpaths as [-> | (name & Hname & ->)].
  - apply prefix_refl.
  - simpl. apply join2_prefix. exact (artifact_names_relative args name Hname).
Qed.

Lemma artifacts_stay_under_save_dir_witness :
  exists m p,
    In (EvSaveModel m p) (history (snd (run env0 args_capsule_lr []))) /\
    String.prefix (save_dir_of env0 args_capsule_lr) p = true.
Proof.
  assert (H : exists m p,
             In (EvSaveModel m p) (history (snd (run env0 args_capsule_lr [])))).
  { do 2 eexists. vm_compute. repeat (first [left; reflexivity | right]). }
  destruct H as (m & p & H). exists m, p. split; [exact H | ].
  exact (proj2 (artifacts_stay_under_save_dir env0 args_capsule_lr []
                  (EvSaveModel m p) p H eq_refl)).
Defined.

Lemma save_dir_of_absolute (env : Env) (args : Args) :
  startswith_sep (a_directory args) = true ->
  save_dir_of env args
  = path_join (a_directory args)
      [a_architecture args; upper (a_loss args); now_strftime env].
Proof.
  intros Habs. unfold save_dir_of, path_join. cbn [fold_left].
  assert (Hdir : join2 (join2 (getcwd env) "saved_models") (a_directory args)
                 = a_directory args)
    by (unfold join2 at 1; rewrite Habs; reflexivity).
  rewrite Hdir. reflexivity.
Qed.

(** X4: when the [directory] argument is an absolute path, [os.path.join]
    drops the working directory and "saved_models": the run writes under
    [directory]/architecture/LOSS/time, next to the data. *)
Theorem absolute_directory_replaces_saved_models
    (env : Env) (args : Args) (ds : list string) (ev : Event) (p : string) :
  startswith_sep (a_directory args) = true ->
  In ev (history (snd (run env args ds))) ->
  written_path ev = Some p ->
  let save_dir := path_join (a_directory args)
                    [a_architecture args; upper (a_loss args); now_strftime env] in
  p = save_dir \/
  exists name, In name (artifact_names args) /\ p = path_join save_dir [name].
Proof.
  intros Habs Hin Hp. cbv zeta.
  rewrite <- (save_dir_of_absolute env args Habs).
  apply main_run_inv_run in Hin. exact (proj1 Hin p Hp).
Qed.

Lemma absolute_directory_replaces_saved_models_witness :
  exists p,
    In (EvMakedirs p) (history (snd (run env0 args_absolute_lr []))) /\
    (p = "/data/capsule/mvtec/L2/10-12-2019_19-46-17" \/
     exists name,
       In name (artifact_names args_absolute_lr) /\
       p = path_join "/data/capsule/mvtec/L2/10-12-2019_19-46-17" [name]).
Proof.
  assert (H : exists p, In (EvMakedirs p) (history (snd (run env0 args_absolute_lr [])))).
  { eexists. vm_compute. repeat (first [left; reflexivity | right]). }
  destruct H as (p & H). exists p. split; [exact H | ].
  exact (absolute_directory_replaces_saved_models env0 args_absolute_lr []
           (EvMakedirs p) p eq_refl H eq_refl).
Defined.

(** X5: the one-cycle training call gets the learning rate typed at the
    finder's prompt and [nb_images // number of training images] epochs,
    the number [setup.json] records too; with fewer images asked for than
    there are, that is zero epochs. *)
Theorem training_rate_and_epochs
    (env : Env) (args : Args) (ds : list string) (lr : Q) (epochs : Z) :
  In (EvFitOnecycle lr epochs) (history (snd (run env args ds))) ->
  typed_max_lr env = Some lr /\
  0 < a_lr_find args /\
  train_files env args <> [] /\
  epochs = a_nb_images args / Z.of_nat (length (train_files env args)) /\
  (0 <= a_nb_images args < Z.of_nat (length (train_files env args)) -> epochs = 0) /\
  (forall path setup,
      In (EvJsonDump path setup) (history (snd (run env args ds))) ->
      su_epochs setup = epochs).
Proof.
  intros Hin. apply main_run_inv_run in Hin.
  destruct Hin as [_ (Htyped & Hlr & Hfiles & Hepochs)].
  repeat split; try assumption.
  - intros Hsmall. rewrite Hepochs. apply Z.div_small. exact Hsmall.
  - intros path setup Hjson. apply main_run_inv_run in Hjson.
    destruct Hjson as [_ (Hsu & _)]. rewrite Hsu, Hepochs. reflexivity.
Qed.

Lemma training_rate_and_epochs_witness :
  exists lr epochs,
    In (EvFitOnecycle lr epochs) (history (snd (run env0 args_capsule_lr []))) /\
    typed_max_lr env0 = Some lr /\
    epochs = 10000 / 4.
Proof.
  assert (H : exists lr epochs,
             In (EvFitOnecycle lr epochs) (history (snd (run env0 args_capsule_lr [])))).
  { do 2 eexists. vm_compute. repeat (first [left; reflexivity | right]). }
  destruct H as (lr & epochs & H). exists lr, epochs.
  destruct (training_rate_and_epochs env0 args_capsule_lr [] lr epochs H)
    as (Ht & _ & _ & He & _).
  split; [exact H | split; [exact Ht | exact He]].
Defined.

(** X6: every iterator [main] builds reads [directory]/train in the
    requested color mode, with the image size, rescaling and preprocessing
    of the architecture.  The training iterator augments and shuffles; the
    validation iterators do not augment, and the one built for the
    inspection holds all validation images in one unshuffled batch. *)
Theorem iterators_follow_the_arguments
    (env : Env) (args : Args) (ds : list string) (g : DirectoryIterator) :
  In (EvFlowFromDirectory g) (history (snd (run env args ds))) ->
  it_directory g = path_join (a_directory args) ["train"] /\
  it_color_mode g = a_color args /\
  it_class_mode g = "input" /\
  it_filenames g = found_files env (it_directory g) (it_subset g) /\
  preprocessing_of_architecture (a_architecture args) g /\
  ((it_subset g = "training" /\ augments (it_datagen g) = true /\
    it_batch_size g = a_batch args /\ it_shuffle g = true)
   \/
   (it_subset g = "validation" /\ augments (it_datagen g) = false /\
    ((it_batch_size g = a_batch args /\ it_shuffle g = true) \/
     (it_batch_size g = Z.of_nat (length (validation_files env args)) /\
      it_shuffle g = false)))).
Proof.
  intros Hin. apply main_run_inv_run in Hin. exact (proj2 Hin).
Qed.

Lemma iterators_follow_the_arguments_witness :
  exists g,
    In (EvFlowFromDirectory g) (history (snd (run env0 args_capsule_lr []))) /\
    it_directory g = "mvtec/capsule/train" /\
    preprocessing_of_architecture "mvtec" g.
Proof.
  assert (H : exists g,
             In (EvFlowFromDirectory g) (history (snd (run env0 args_capsule_lr [])))).
  { eexists. vm_compute. repeat (first [left; reflexivity | right]). }
  destruct H as (g & H). exists g.
  destruct (iterators_follow_the_arguments env0 args_capsule_lr [] g H)
    as (Hd & _ & _ & _ & Hp & _).
  split; [exact H | split; [exact Hd | exact Hp]].
Defined.

(** X7: one model serves the whole run: the model that is built, compiled,
    wrapped in the learner, saved and used for the predictions is the one
    of the requested architecture, with the channels of the color mode;
    it is compiled with [ssim_metric] for grayscale and [mssim_metric] for
    rgb. *)
Theorem one_model_per_run
    (env : Env) (args : Args) (ds : list string) (ev : Event) (m : Model) :
  In ev (history (snd (run env args ds))) ->
  model_used ev = Some m ->
  requested_model (a_architecture args) (a_color args) = Some m /\
  (forall objective ms,
      ev = EvCompile m objective ms ->
      (a_color args = "grayscale" /\ ms = [ssim_metric]) \/
      (a_color args = "rgb" /\ ms = [mssim_metric])).
Proof.
  intros Hin Hm. apply main_run_inv_run in Hin. destruct Hin as [_ Hinv].
  destruct ev; try discriminate Hm; injection Hm as ->; simpl in Hinv.
  - split; [exact Hinv | intros ? ? H; discriminate H].
  - split; [exact (proj1 Hinv) | ].
    intros objective ms [= _ <-]. exact (proj2 Hinv).
  - split; [exact (proj1 Hinv) | intros ? ? H; discriminate H].
  - split; [exact Hinv | intros ? ? H; discriminate H].
  - split; [exact (proj1 Hinv) | intros ? ? H; discriminate H].
Qed.

Lemma one_model_per_run_witness :
  exists m path,
    In (EvSaveModel m path) (history (snd (run env0 args_capsule_rgb_lr []))) /\
    requested_model "mvtec" "rgb" = Some m /\ m = MvtecModel 3.
Proof.
  assert (H : exists m path,
             In (EvSaveModel m path) (history (snd (run env0 args_capsule_rgb_lr [])))).
  { do 2 eexists. vm_compute. repeat (first [left; reflexivity | right]). }
  destruct H as (m & path & H). exists m, path.
  pose proof (proj1 (one_model_per_run env0 args_capsule_rgb_lr []
                       (EvSaveModel m path) m H eq_refl)) as Hm.
  split; [exact H | split; [exact Hm | ]].
  vm_compute in Hm. injection Hm as <-. reflexivity.
Defined.

(** X8: for a batch size that is not negative, the images [main] saves
    are the first [batch_size] files of a shuffle of the validation files,
    while the names passed along to [save_images] are all validation files
    in directory order: there are at most [batch_size] images, and with
    more validation images than the batch size there are more names than
    images. *)
Theorem inspection_images_and_names
    (env : Env) (args : Args) (ds : list string)
    (dir : string) (t : Tensor) (fs : list string) (color_mode suffix : string) :
  0 <= a_batch args ->
  In (EvSaveImages dir t fs color_mode suffix) (history (snd (run env args ds))) ->
  fs = validation_files env args /\
  tensor_files t = firstn (Z.to_nat (a_batch args)) (shuffled env fs) /\
  (length (tensor_files t) <= Z.to_nat (a_batch args))%nat /\
  (a_batch args < Z.of_nat (length fs) ->
   (length (tensor_files t) < length fs)%nat).
Proof.
  intros Hbatch Hin. apply main_run_inv_run in Hin. destruct Hin as [_ [Ht Hfs]].
  assert (Hlen : (length (tensor_files t) <= Z.to_nat (a_batch args))%nat).
  { rewrite Ht. unfold inspected_files. apply firstn_le_length. }
  split; [exact Hfs | split; [ | split; [exact Hlen | ]]].
  - rewrite Ht, Hfs. reflexivity.
  - intros Hsmall. lia.
Qed.

Lemma inspection_images_and_names_witness :
  exists dir t fs color_mode suffix,
    In (EvSaveImages dir t fs color_mode suffix)
       (history (snd (run env0 args_capsule_lr []))) /\
    tensor_files t = ["v3.png"; "v2.png"] /\
    fs = ["v1.png"; "v2.png"; "v3.png"].
Proof.
  assert (H : exists dir t fs color_mode suffix,
             In (EvSaveImages dir t fs color_mode suffix)
                (history (snd (run env0 args_capsule_lr [])))).
  { do 5 eexists. vm_compute. repeat (first [left; reflexivity | right]). }
  destruct H as (dir & t & fs & color_mode & suffix & H).
  exists dir, t, fs, color_mode, suffix.
  assert (Hbatch : 0 <= a_batch args_capsule_lr) by (simpl; lia).
  destruct (inspection_images_and_names env0 args_capsule_lr [] dir t fs color_mode
              suffix Hbatch H) as (Hfs & Ht & _).
  split; [exact H | split; [ | exact Hfs]].
  rewrite Ht, Hfs. reflexivity.
Defined.

(** X12: the only iterator [main] reads with [next] is the shuffled
    validation iterator with the training batch size; the unshuffled
    iterator built for the inspection on line 326 is never read. *)
Theorem only_the_shuffled_iterator_is_read
    (env : Env) (args : Args) (ds : list string) (g : DirectoryIterator) :
  In (EvNext g) (history (snd (run env args ds))) ->
  it_subset g = "validation" /\ it_shuffle g = true /\ it_batch_size g = a_batch args.
Proof.
  intros Hin. apply main_run_inv_run in Hin. exact (proj2 Hin).
Qed.

Lemma only_the_shuffled_iterator_is_read_witness :
  exists g,
    In (EvNext g) (history (snd (run env0 args_capsule_lr []))) /\
    it_shuffle g = true /\ it_batch_size g = 2.
Proof.
  assert (H : exists g, In (EvNext g) (history (snd (run env0 args_capsule_lr [])))).
  { eexists. vm_compute. repeat (first [left; reflexivity | right]). }
  destruct H as (g & H). exists g.
  destruct (only_the_shuffled_iterator_is_read env0 args_capsule_lr [] g H)
    as (_ & Hs & Hb).
  split; [exact H | split; [exact Hs | exact Hb]].
Defined.

(** ** The configuration checks and the docstring *)

(** X9: on the architectures, color modes and losses of the parser, the
    checks of lines 67-75 let through exactly the combinations the table
    of the module's docstring lists as valid. *)
Theorem checks_agree_with_docstring_table
    (architecture color_mode loss : string) (w : World) :
  In architecture ["mvtec"; "mvtec2"; "resnet"; "nasnet"] ->
  In color_mode ["rgb"; "grayscale"] ->
  In loss ["MSSIM"; "SSIM"; "L2"; "MSE"] ->
  check_input_arguments architecture color_mode loss w = (Return tt, w) <->
  table_valid architecture color_mode loss = true.
Proof.
  intros Ha Hc Hl. simpl In in *.
  repeat (destruct Ha as [Ha | Ha]); try contradiction;
    repeat (destruct Hc as [Hc | Hc]); try contradiction;
    repeat (destruct Hl as [Hl | Hl]); try contradiction;
    subst architecture color_mode loss;
    (split; intros H; [try reflexivity; discriminate H | try reflexivity; discriminate H]).
Qed.

Lemma checks_agree_with_docstring_table_witness :
  check_input_arguments "resnet" "rgb" "MSSIM" (init_world []) = (Return tt, init_world [])
  /\ table_valid "resnet" "rgb" "MSSIM" = true.
Proof.
  pose proof (checks_agree_with_docstring_table "resnet" "rgb" "MSSIM" (init_world [])
                ltac:(simpl; tauto) ltac:(simpl; tauto) ltac:(simpl; tauto)) as H.
  split; [apply H; reflexivity | reflexivity].
Defined.

(** ** Rules for [ensures] *)













(** ** Rules for [calls] *)

Lemma stages_app (h1 h2 : list Event) :
  stages (h1 ++ h2)%list = (stages h1 ++ stages h2)%list.
Proof. unfold stages. apply flat_map_app. Qed.

Lemma calls_ret {A} (Q : Outcome A -> list Stage -> Prop) (a : A) :
  Q (Return a) [] -> calls Q (ret a).
Proof. intros HQ w. exists []. split; [reflexivity | exact HQ]. Qed.

Lemma calls_raise {A} (Q : Outcome A -> list Stage -> Prop) (e : exn) :
  Q (Raise e) [] -> calls Q (raise e).
Proof. intros HQ w. exists []. split; [reflexivity | exact HQ]. Qed.

Lemma calls_bind {A B} (Q1 : Outcome A -> list Stage -> Prop)
      (Q : Outcome B -> list Stage -> Prop) (m : M A) (f : A -> M B) :
  calls Q1 m ->
  (forall a s1, Q1 (Return a) s1 -> calls (fun o s2 => Q o (s1 ++ s2)%list) (f a)) ->
  (forall e s1, Q1 (Raise e) s1 -> Q (Raise e) s1) ->
  calls Q (bind m f).
Proof.
  intros Hm Hf He w. unfold bind.
  destruct (Hm w) as (new1 & Hlog1 & HQ1).
  destruct (m w) as [[a | e] w1]; simpl in *.
  - destruct (Hf a _ HQ1 w1) as (new2 & Hlog2 & HQ2).
    exists (new2 ++ new1)%list. rewrite Hlog2, Hlog1, app_assoc.
    split; [reflexivity | ].
    rewrite rev_app_distr, stages_app. exact HQ2.
  - exists new1. split; [exact Hlog1 | apply He; exact HQ1].
Qed.

Lemma calls_assoc {A B C} (Q : Outcome C -> list Stage -> Prop)
      (m : M A) (g : A -> M B) (f : B -> M C) :
  calls Q (bind m (fun a => bind (g a) f)) -> calls Q (bind (bind m g) f).
Proof. intros H w. rewrite bind_bind. apply H. Qed.

Lemma calls_bind_ret {A B} (Q : Outcome B -> list Stage -> Prop) (a : A) (f : A -> M B) :
  calls Q (f a) -> calls Q (bind (ret a) f).
Proof. intros H w. apply H. Qed.

Lemma calls_bind_raise {A B} (Q : Outcome B -> list Stage -> Prop) (e : exn)
      (f : A -> M B) :
  Q (Raise e) [] -> calls Q (bind (raise e) f).
Proof. intros H w. exists []. split; [reflexivity | exact H]. Qed.

Lemma calls_emit {B} (Q : Outcome B -> list Stage -> Prop) (ev : Event)
      (f : unit -> M B) :
  calls (fun o s => Q o (stage_of ev ++ s)%list) (f tt) -> calls Q (bind (emit ev) f).
Proof.
  intros Hf.
  apply calls_bind with (Q1 := fun o s => o = Return tt /\ s = stage_of ev).
  - intros w. exists [ev]. split; [reflexivity | ].
    split; [reflexivity | ]. simpl. apply app_nil_r.
  - intros [] s1 [_ ->]. exact Hf.
  - intros e s1 [H _]. discriminate H.
Qed.

Lemma calls_makedirs {B} (Q : Outcome B -> list Stage -> Prop) (path : string)
      (f : unit -> M B) :
  calls Q (f tt) -> calls Q (bind (makedirs path) f).
Proof.
  intros Hf.
  apply calls_bind with (Q1 := fun o s => o = Return tt /\ s = []).
  - intros w. exists [EvMakedirs path]. split; [reflexivity | ].
    split; reflexivity.
  - intros [] s1 [_ ->]. exact Hf.
  - intros e s1 [H _]. discriminate H.
Qed.

Lemma calls_isdir {B} (Q : Outcome B -> list Stage -> Prop) (path : string)
      (f : bool -> M B) :
  (forall b, calls Q (f b)) -> calls Q (bind (isdir path) f).
Proof. intros Hf w. apply (Hf _ w). Qed.

Lemma calls_mkdir_unless {B} (Q : Outcome B -> list Stage -> Prop) (path : string)
      (b : bool) (f : unit -> M B) :
  calls Q (f tt) -> calls Q (bind (if negb b then makedirs path else ret tt) f).
Proof.
  intros Hf. destruct b; cbn [negb].
  - apply calls_bind_ret. exact Hf.
  - apply calls_makedirs. exact Hf.
Qed.

Lemma calls_local {A B} (Q : Outcome B -> list Stage -> Prop) (name : string)
      (v : option A) (f : A -> M B) :
  (forall a, v = Some a -> calls Q (f a)) ->
  (v = None -> Q (Raise (UnboundLocalError name)) []) ->
  calls Q (bind (local name v) f).
Proof.
  intros HS HN. destruct v as [a | ]; simpl.
  - apply calls_bind_ret. auto.
  - apply calls_bind_raise. auto.
Qed.

Lemma calls_run {A} (Q : Outcome A -> list Stage -> Prop) (m : M A) (ds : list string) :
  calls Q m ->
  Q (fst (m (init_world ds))) (stages (history (snd (m (init_world ds))))).
Proof.
  intros H. destruct (H (init_world ds)) as (new & Hlog & HQ).
  unfold history. rewrite Hlog. simpl. rewrite app_nil_r. exact HQ.
Qed.

Ltac cstep :=
  lazymatch goal with
  | |- calls _ (bind (bind _ _) _) => apply calls_assoc
  | |- calls _ (bind (ret _) _) => apply calls_bind_ret
  | |- calls _ (bind (raise _) _) => apply calls_bind_raise
  | |- calls _ (bind (emit _) _) => apply calls_emit
  | |- calls _ (bind (print _) _) => unfold print at 1; apply calls_emit
  | |- calls _ (bind (makedirs _) _) => apply calls_makedirs
  | |- calls _ (bind (isdir _) _) => apply calls_isdir; intros ?
  | |- calls _ (bind (if negb _ then makedirs _ else ret tt) _) =>
      apply calls_mkdir_unless
  | |- calls _ (bind (local _ _) _) =>
      apply calls_local;
      [ let a := fresh "a" in let H := fresh "H" in intros a H; try discriminate H
      | let H := fresh "H" in intros H; try discriminate H ]
  | |- calls _ (bind (floordiv _ _) _) => unfold floordiv at 1
  | |- calls _ (bind (flow_from_directory _ _ _ _ _ _ _ _ _) _) =>
      unfold flow_from_directory at 1
  | |- calls _ (bind (next_inputs _ _) _) => unfold next_inputs at 1
  | |- calls _ (bind (find_learning_rate _ _ _) _) =>
      unfold find_learning_rate at 1
  | |- calls _ (bind (if ?b then _ else _) _) => destruct b eqn:?
  | |- calls _ (bind (match ?x with _ => _ end) _) => destruct x eqn:?
  | |- calls _ (match ?x with _ => _ end) => destruct x eqn:?
  | |- calls _ (emit _) =>
      apply (calls_emit _ _ (fun _ => ret tt)); apply calls_ret
  | |- calls _ (ret _) => apply calls_ret
  | |- calls _ (raise _) => apply calls_raise
  end.

Lemma main_follows_pipeline (env : Env) (args : Args) :
  calls (fun o s => exists rest, (s ++ rest)%list = pipeline /\
                                 (o = Return tt <-> rest = []))
        (main env args).
Proof.
  unfold main, check_input_arguments, build_model.
  repeat cstep.
  all: try (tidy; unknown_arch).
  all: cbn [stage_of app]; unfold pipeline.
  all: eexists; (split; [reflexivity | ]).
  all: split; let Hr := fresh "Hr" in intros Hr; first [discriminate Hr | reflexivity].
Qed.

(** X11: in every run the calls into the collaborators follow one
    pipeline: build the model, build the two iterators, compile, wrap in
    the learner, train, save the model, write [setup.json], build the
    inspection iterator, read a batch, predict, compute the residual maps,
    save the two image sets.  A run makes a prefix of these calls, each at
    most as often as listed, and it returns exactly when it made them
    all. *)
Theorem calls_follow_the_pipeline (env : Env) (args : Args) (ds : list string) :
  exists rest,
    (stages (history (snd (run env args ds))) ++ rest)%list = pipeline /\
    (fst (run env args ds) = Return tt <-> rest = []).
Proof.
  exact (calls_run _ (main env args) ds (main_follows_pipeline env args)).
Qed.

(** ** Runs stopped between the directory setup and the training *)



